(** * go-basics: the authentication core

    A shallow embedding of the user-account service: the token codec
    ([internal/auth/jwt.go]), the authentication gate
    ([internal/auth/middleware.go]), the user domain services
    ([internal/domain/user]), the MySQL repository and the HTTP handlers
    ([internal/handler/http/user_handler.go]).

    Go strings and byte slices are sequences of bytes; both are modelled by
    [string], a list of 8-bit [ascii].  [uint64] values are [N] (the only
    arithmetic on them is the range check of [strconv.ParseUint]).  Instants
    and durations are [Z] nanoseconds. *)

From Stdlib Require Import String Ascii List Bool ZArith NArith Lia DecimalString.
Import ListNotations.
Open Scope string_scope.

(* ===================================================================== *)
(** * The parts of the Go standard library the program calls *)
(* ===================================================================== *)

Module Go.

(** A Go function returning [(T, error)]. *)
Inductive result (E A : Type) : Type :=
| Ok (a : A)
| Err (e : E).
Arguments Ok {E A} a.
Arguments Err {E A} e.

(** [len(s)]: the number of bytes of [s]. *)
Definition len (s : string) : nat := String.length s.

(** [strings.Split(s, sep)] for a one-byte separator: the substrings
    between the separators; a string without separator is returned whole,
    also the empty one. *)
Fixpoint Split (s : string) (sep : ascii) : list string :=
  match s with
  | EmptyString => [EmptyString]
  | String c rest =>
      if Ascii.eqb c sep then EmptyString :: Split rest sep
      else match Split rest sep with
           | part :: parts => String c part :: parts
           | [] => [String c EmptyString]
           end
  end.

(** A string without the byte [sep]. *)
Definition free (sep : ascii) (s : string) : Prop :=
  ~ In sep (list_ascii_of_string s).

Definition is_upper (c : ascii) : bool :=
  (65 <=? nat_of_ascii c)%nat && (nat_of_ascii c <=? 90)%nat.

Definition lower_byte (c : ascii) : ascii :=
  if is_upper c then ascii_of_nat (nat_of_ascii c + 32) else c.

(** [strings.ToLower] on the bytes 'A'..'Z'; other bytes are left as they
    are.  The program compares the result with the ASCII word "bearer",
    which no string with other letters lowers to, and lowers addresses,
    of which the stored ones matched the ASCII-only [emailRegex]. *)
Fixpoint ToLower (s : string) : string :=
  match s with
  | EmptyString => EmptyString
  | String c rest => String (lower_byte c) (ToLower rest)
  end.

Inductive NumError := ErrSyntax | ErrRange.

Definition digit_value (c : ascii) : option N :=
  let n := N_of_ascii c in
  if (48 <=? n)%N && (n <=? 57)%N then Some (n - 48)%N else None.

Fixpoint parse_digits (s : string) (acc : N) : option N :=
  match s with
  | EmptyString => Some acc
  | String c rest =>
      match digit_value c with
      | Some d => parse_digits rest (acc * 10 + d)%N
      | None => None
      end
  end.

Definition maxUint64 : N := 18446744073709551615%N.

(** [strconv.ParseUint(s, 10, 64)]: decimal digits only, no sign, and a
    value that fits 64 bits.  (The program asks whether there is an error,
    not which of the two.) *)
Definition ParseUint (s : string) : result NumError N :=
  match s with
  | EmptyString => Err ErrSyntax
  | _ =>
      match parse_digits s 0 with
      | None => Err ErrSyntax
      | Some n => if (n <=? maxUint64)%N then Ok n else Err ErrRange
      end
  end.

(** [time.Time] as nanoseconds since the Unix epoch, [time.Duration] as
    nanoseconds. *)
Definition Time := Z.
Definition Duration := Z.
Definition Second : Duration := 1000000000%Z.
Definition Minute : Duration := (60 * Second)%Z.

(** [t.Add(d)]. *)
Definition Add (t : Time) (d : Duration) : Time := (t + d)%Z.

(** [t.Truncate(time.Second)]: [t] rounded down to a whole second. *)
Definition Truncate_Second (t : Time) : Time := (t / Second * Second)%Z.

(** [t.Before(u)]. *)
Definition Before (t u : Time) : bool := (t <? u)%Z.

End Go.

Import Go.

(* ===================================================================== *)
(** * github.com/golang-jwt/jwt/v5, as far as the program uses it *)
(* ===================================================================== *)

Module jwt.

Inductive Hash := SHA256 | SHA384 | SHA512.

(** The signing methods the library registers. *)
Inductive SigningMethod :=
| SigningMethodHMAC (h : Hash)
| SigningMethodRSA (h : Hash)
| SigningMethodRSAPSS (h : Hash)
| SigningMethodECDSA (h : Hash)
| SigningMethodEd25519
| SigningMethodNone.

Definition SigningMethodHS256 := SigningMethodHMAC SHA256.

Definition Alg (m : SigningMethod) : string :=
  match m with
  | SigningMethodHMAC SHA256 => "HS256"
  | SigningMethodHMAC SHA384 => "HS384"
  | SigningMethodHMAC SHA512 => "HS512"
  | SigningMethodRSA SHA256 => "RS256"
  | SigningMethodRSA SHA384 => "RS384"
  | SigningMethodRSA SHA512 => "RS512"
  | SigningMethodRSAPSS SHA256 => "PS256"
  | SigningMethodRSAPSS SHA384 => "PS384"
  | SigningMethodRSAPSS SHA512 => "PS512"
  | SigningMethodECDSA SHA256 => "ES256"
  | SigningMethodECDSA SHA384 => "ES384"
  | SigningMethodECDSA SHA512 => "ES512"
  | SigningMethodEd25519 => "EdDSA"
  | SigningMethodNone => "none"
  end.

Definition registered_methods : list SigningMethod :=
  [ SigningMethodHMAC SHA256; SigningMethodHMAC SHA384; SigningMethodHMAC SHA512;
    SigningMethodRSA SHA256; SigningMethodRSA SHA384; SigningMethodRSA SHA512;
    SigningMethodRSAPSS SHA256; SigningMethodRSAPSS SHA384; SigningMethodRSAPSS SHA512;
    SigningMethodECDSA SHA256; SigningMethodECDSA SHA384; SigningMethodECDSA SHA512;
    SigningMethodEd25519; SigningMethodNone ].

(** [jwt.GetSigningMethod(alg)]: the registered method of that name, or nil. *)
Definition GetSigningMethod (alg : string) : option SigningMethod :=
  find (fun m => String.eqb (Alg m) alg) registered_methods.

(** The library's sentinel errors that can come out of [ParseWithClaims];
    [ErrKeyfunc] is whatever error the caller's key function returned. *)
Inductive Error :=
| ErrTokenMalformed
| ErrTokenUnverifiable
| ErrTokenSignatureInvalid
| ErrSignatureInvalid
| ErrTokenInvalidClaims
| ErrTokenExpired
| ErrTokenNotValidYet
| ErrKeyfunc (msg : string).

Definition Error_eqb (a b : Error) : bool :=
  match a, b with
  | ErrTokenMalformed, ErrTokenMalformed
  | ErrTokenUnverifiable, ErrTokenUnverifiable
  | ErrTokenSignatureInvalid, ErrTokenSignatureInvalid
  | ErrSignatureInvalid, ErrSignatureInvalid
  | ErrTokenInvalidClaims, ErrTokenInvalidClaims
  | ErrTokenExpired, ErrTokenExpired
  | ErrTokenNotValidYet, ErrTokenNotValidYet => true
  | ErrKeyfunc m, ErrKeyfunc m' => String.eqb m m'
  | _, _ => false
  end.

(** The parser joins the errors it met into one error value; [errors.Is]
    on it asks whether the target is one of them. *)
Definition JoinedError := list Error.

Definition errors_Is (err : JoinedError) (target : Error) : bool :=
  existsb (Error_eqb target) err.

(** [jwt.NumericDate]: a [time.Time] cut to [jwt.TimePrecision], one
    second. *)
Definition NumericDate := Time.

Definition NewNumericDate (t : Time) : NumericDate := Truncate_Second t.

(** [jwt.RegisteredClaims]; Subject, Audience and ID are never set by the
    program and are left out. *)
Record RegisteredClaims := {
  Issuer : string;
  ExpiresAt : option NumericDate;
  NotBefore : option NumericDate;
  IssuedAt : option NumericDate
}.

(** [Validator.verifyExpiresAt]: the claim is optional; when present the
    instant of validation has to lie before it. *)
Definition verifyExpiresAt (rc : RegisteredClaims) (now : Time) : list Error :=
  match ExpiresAt rc with
  | None => []
  | Some exp => if Before now exp then [] else [ErrTokenExpired]
  end.

(** [Validator.verifyNotBefore]. *)
Definition verifyNotBefore (rc : RegisteredClaims) (now : Time) : list Error :=
  match NotBefore rc with
  | None => []
  | Some nbf => if negb (Before now nbf) then [] else [ErrTokenNotValidYet]
  end.

(** [Validator.Validate] of the default validator: no leeway, issued-at,
    audience, issuer and subject are not checked.  [now] is its
    [time.Now()]. *)
Definition Validate (rc : RegisteredClaims) (now : Time) : list Error :=
  verifyExpiresAt rc now ++ verifyNotBefore rc now.

Section Parser.

(** The caller's claims struct; it implements the library's [Claims]
    interface through the [RegisteredClaims] it embeds. *)
Variable Claims : Type.
Variable registered : Claims -> RegisteredClaims.

(** What a token string consists of once its three dot-separated
    segments are decoded: the first two segments as they stand (the
    signed text), the header's "alg", the claims, and the signature
    bytes ([None] when the third segment is not base64url). *)
Record Segments := {
  signing_input : string;
  alg : string;
  claims : Claims;
  signature : option string
}.

(** The routines below the parser: [crypto/hmac] over the SHA-2 family,
    and the JSON and base64url coding of the segments. *)
Record Backend := {
  hmac : Hash -> string -> string -> string;
  SigningString : string -> Claims -> string;
  EncodeSegment : string -> string;
  DecodeSegments : string -> option Segments
}.

Variable lib : Backend.

Record Token := {
  Method : SigningMethod;
  TokenClaims : Claims;
  Signature : string;
  Valid : bool
}.

(** [jwt.NewWithClaims(method, claims).SignedString(key)] for an HMAC
    method and a [[]byte] key, where signing cannot fail. *)
Definition SignedString (h : Hash) (c : Claims) (key : string) : string :=
  let sstr := SigningString lib (Alg (SigningMethodHMAC h)) c in
  sstr ++ "." ++ EncodeSegment lib (hmac lib h key sstr).

(** [Method.Verify(signingString, sig, key)] with a [[]byte] key: the HMAC
    methods compare the signature with the MAC they compute; every other
    method refuses a key of that type. *)
Definition Verify (m : SigningMethod) (sstr sig key : string) : bool :=
  match m with
  | SigningMethodHMAC h => String.eqb sig (hmac lib h key sstr)
  | _ => false
  end.

(** [jwt.ParseWithClaims(tokenString, &Claims{}, keyFunc)]: the segments,
    the method of the header's "alg", the key function, the signature, the
    registered claims.  (Releases of the library differ in whether the
    signature segment is decoded before or after the key function runs; both
    failures are errors other than [ErrTokenExpired].) *)
Definition ParseWithClaims (tokenString : string)
    (keyFunc : SigningMethod -> string -> result string string)
    (now : Time) : result JoinedError Token :=
  match DecodeSegments lib tokenString with
  | None => Err [ErrTokenMalformed]
  | Some s =>
      match GetSigningMethod (alg s) with
      | None => Err [ErrTokenUnverifiable]
      | Some m =>
          match keyFunc m (alg s) with
          | Err e => Err [ErrTokenUnverifiable; ErrKeyfunc e]
          | Ok key =>
              match signature s with
              | None => Err [ErrTokenMalformed]
              | Some sig =>
                  if negb (Verify m (signing_input s) sig key)
                  then Err [ErrTokenSignatureInvalid; ErrSignatureInvalid]
                  else
                    match Validate (registered (claims s)) now with
                    | [] => Ok {| Method := m; TokenClaims := claims s;
                                  Signature := sig; Valid := true |}
                    | errs => Err (ErrTokenInvalidClaims :: errs)
                    end
              end
          end
      end
  end.

(** The segments a string made by [SignedString] consists of. *)
Definition signed_segments (h : Hash) (c : Claims) (key : string) : Segments :=
  let sstr := SigningString lib (Alg (SigningMethodHMAC h)) c in
  {| signing_input := sstr;
     alg := Alg (SigningMethodHMAC h);
     claims := c;
     signature := Some (hmac lib h key sstr) |}.

End Parser.

Arguments signed_segments {Claims} _ _ _ _.
Arguments signing_input {Claims} _.
Arguments alg {Claims} _.
Arguments claims {Claims} _.
Arguments signature {Claims} _.
Arguments hmac {Claims} _ _ _ _.
Arguments SigningString {Claims} _ _ _.
Arguments EncodeSegment {Claims} _ _.
Arguments DecodeSegments {Claims} _ _.
Arguments Method {Claims} _.
Arguments TokenClaims {Claims} _.
Arguments Signature {Claims} _.
Arguments Valid {Claims} _.
Arguments SignedString {Claims} _ _ _ _.
Arguments Verify {Claims} _ _ _ _ _.
Arguments ParseWithClaims {Claims} _ _ _ _ _.

End jwt.

(* ===================================================================== *)
(** * internal/auth: the token codec and the authentication gate *)
(* ===================================================================== *)

Module auth.

(** The sentinel errors of jwt.go. *)
Inductive Error := ErrInvalidToken | ErrExpiredToken.

Definition Error_eqb (a b : Error) : bool :=
  match a, b with
  | ErrInvalidToken, ErrInvalidToken | ErrExpiredToken, ErrExpiredToken => true
  | _, _ => false
  end.

(** [errors.Is] on the sentinels, which wrap nothing. *)
Definition errors_Is (err target : Error) : bool := Error_eqb err target.

Record Claims := {
  UserID : N;
  Email : string;
  RegisteredClaims : jwt.RegisteredClaims
}.

Record JWTManager := {
  secret : string;
  duration : Duration;
  issuer : string
}.

Definition NewJWTManager (secret : string) (duration : Duration) (issuer : string)
  : JWTManager :=
  {| secret := secret; duration := duration; issuer := issuer |}.

Definition Backend := jwt.Backend Claims.

Section Codec.

Variable lib : Backend.

(** [GenerateToken]; [now] is the value of its [time.Now()].  Signing
    with a byte-slice key under HS256 does not fail, so the error branch
    of the source is never taken. *)
Definition GenerateToken (m : JWTManager) (now : Time) (userID : N) (email : string)
  : result Error string :=
  let claims :=
    {| UserID := userID;
       Email := email;
       RegisteredClaims :=
         {| jwt.ExpiresAt := Some (jwt.NewNumericDate (Add now (duration m)));
            jwt.IssuedAt := Some (jwt.NewNumericDate now);
            jwt.NotBefore := Some (jwt.NewNumericDate now);
            jwt.Issuer := issuer m |} |} in
  Ok (jwt.SignedString lib jwt.SHA256 claims (secret m)).

(** The claims [GenerateToken] stamps at [now]. *)
Definition issued_claims (m : JWTManager) (now : Time) (userID : N) (email : string)
  : Claims :=
  {| UserID := userID;
     Email := email;
     RegisteredClaims :=
       {| jwt.ExpiresAt := Some (jwt.NewNumericDate (Add now (duration m)));
          jwt.IssuedAt := Some (jwt.NewNumericDate now);
          jwt.NotBefore := Some (jwt.NewNumericDate now);
          jwt.Issuer := issuer m |} |}.

(** The key function handed to the parser: the secret, for a method of
    the HMAC family only. *)
Definition keyFunc (m : JWTManager) (method : jwt.SigningMethod) (alg : string)
  : result string string :=
  match method with
  | jwt.SigningMethodHMAC _ => Ok (secret m)
  | _ => Err ("unexpected signing method: " ++ alg)
  end.

(** [ValidateToken]; [now] is the instant at which the library
    validates the registered claims. *)
Definition ValidateToken (m : JWTManager) (now : Time) (tokenString : string)
  : result Error Claims :=
  match jwt.ParseWithClaims RegisteredClaims lib tokenString (keyFunc m) now with
  | Err err =>
      if jwt.errors_Is err jwt.ErrTokenExpired
      then Err ErrExpiredToken
      else Err ErrInvalidToken
  | Ok token =>
      if negb (jwt.Valid token) then Err ErrInvalidToken
      else Ok (jwt.TokenClaims token)
  end.

End Codec.

(* ------------------------------------------------------------------- *)
(** ** middleware.go *)

(** What the gate and the handlers read of an [*http.Request]: the
    Authorization header ([None] when absent), the "id" path value, the
    body as the JSON decoder reads it, and the claims bound in the
    request context under [ClaimsKey]. *)
Inductive Body :=
| InvalidJSON
| JSONObject (email password : string).

Record Request := {
  Authorization : option string;
  PathValue_id : string;
  RequestBody : Body;
  ContextClaims : option Claims
}.

(** [r.Header.Get("Authorization")]: the empty string when absent. *)
Definition Header_Get_Authorization (r : Request) : string :=
  match Authorization r with
  | Some v => v
  | None => ""
  end.

(** [r.WithContext(context.WithValue(r.Context(), ClaimsKey, claims))]. *)
Definition WithClaims (r : Request) (claims : Claims) : Request :=
  {| Authorization := Authorization r;
     PathValue_id := PathValue_id r;
     RequestBody := RequestBody r;
     ContextClaims := Some claims |}.

Definition GetClaimsFromContext (r : Request) : option Claims := ContextClaims r.

Definition extractBearerToken (r : Request) : result string string :=
  let authHeader := Header_Get_Authorization r in
  if String.eqb authHeader "" then Err "authorization header is required"
  else
    match Split authHeader " "%char with
    | [scheme; token] =>
        if negb (String.eqb (ToLower scheme) "bearer")
        then Err "authorization header format must be 'Bearer <token>'"
        else Ok token
    | _ => Err "authorization header format must be 'Bearer <token>'"
    end.

(** What a handler writes to the [http.ResponseWriter]. *)
Inductive Payload :=
| NoContent
| PlainText (msg : string)
| ErrorJSON (msg : string)
| UserJSON (id : N) (email : string)
| LoginJSON (token : string) (id : N) (email : string).

Record Response := { Status : N; Written : Payload }.

Definition StatusOK : N := 200.
Definition StatusCreated : N := 201.
Definition StatusNoContent : N := 204.
Definition StatusBadRequest : N := 400.
Definition StatusUnauthorized : N := 401.
Definition StatusForbidden : N := 403.
Definition StatusNotFound : N := 404.
Definition StatusConflict : N := 409.
Definition StatusInternalServerError : N := 500.

(** [http.Error(w, msg, code)]. *)
Definition http_Error (msg : string) (code : N) : Response :=
  {| Status := code; Written := PlainText msg |}.

Record Middleware := { jwtManager : JWTManager }.

Definition NewMiddleware (jwtManager : JWTManager) : Middleware :=
  {| jwtManager := jwtManager |}.

Section Gate.

Variable lib : Backend.

(** The handlers run against some store of type [W] (the database
    behind the service) and return the response with the store they
    leave. *)
Variable W : Type.
Definition Handler := Request -> W -> Response * W.

(** [Middleware.Authenticate(next)], serving a request that arrives at
    the instant [now]. *)
Definition Authenticate (m : Middleware) (now : Time) (next : Handler) : Handler :=
  fun r w =>
    match extractBearerToken r with
    | Err _ =>
        (http_Error "missing or invalid authorization header" StatusUnauthorized, w)
    | Ok token =>
        match ValidateToken lib (jwtManager m) now token with
        | Err err =>
            if errors_Is err ErrExpiredToken
            then (http_Error "token has expired" StatusUnauthorized, w)
            else (http_Error "invalid token" StatusUnauthorized, w)
        | Ok claims => next (WithClaims r claims) w
        end
    end.

Definition AuthenticateFunc := Authenticate.

End Gate.

Arguments Authenticate lib {W} m now next r w.
Arguments AuthenticateFunc lib {W} m now next r w.

End auth.

(* ===================================================================== *)
(** * golang.org/x/crypto/bcrypt, as far as the program uses it *)
(* ===================================================================== *)

Module bcrypt.

Definition MinCost : nat := 4.
Definition MaxCost : nat := 31.
Definition DefaultCost : nat := 10.

Inductive Error :=
| ErrMismatchedHashAndPassword
| ErrHashTooShort
| ErrPasswordTooLong
| InvalidHashPrefixError
| HashVersionTooNewError
| InvalidCostError (cost : nat).

(** The parts of a digest "$2a$<cost>$<salt><hash>". *)
Record hashed := { hash : string; salt : string; cost : nat }.

(** Blowfish's key schedule reads its eighteen 32-bit words of key
    material from the key bytes, starting over at the first byte when the
    key is used up: 72 bytes in all. *)
Definition key_schedule_bytes : nat := 72.

Definition ExpandKey_input (key : list ascii) : list ascii :=
  map (fun i => nth (i mod length key) key zero) (seq 0 key_schedule_bytes).

(** The key bcrypt gives to Blowfish: the password and a trailing NUL. *)
Definition ckey (password : string) : list ascii :=
  list_ascii_of_string password ++ [zero].

(** The routines below the two entry points: the expensive key setup and
    encryption (a function of the cost, the salt and the key material the
    schedule reads), and the coding of a digest. *)
Record Backend := {
  eksblowfish : nat -> string -> list ascii -> string;
  Hash : hashed -> string;
  newFromHash : string -> result Error hashed
}.

Section Bcrypt.

Variable lib : Backend.

Definition bcrypt (password : string) (cost : nat) (salt : string) : string :=
  eksblowfish lib cost salt (ExpandKey_input (ckey password)).

(** [bcrypt.GenerateFromPassword(password, cost)]; [salt] is the salt it
    draws from [crypto/rand]. *)
Definition GenerateFromPassword (salt : string) (password : string) (cost : nat)
  : result Error string :=
  if (72 <? len password)%nat then Err ErrPasswordTooLong
  else
    let cost := if (cost <? MinCost)%nat then DefaultCost else cost in
    if (MaxCost <? cost)%nat then Err (InvalidCostError cost)
    else Ok (Hash lib {| hash := bcrypt password cost salt; salt := salt; cost := cost |}).

(** [bcrypt.CompareHashAndPassword(hashedPassword, password)]: [None] is
    the nil error of a match. *)
Definition CompareHashAndPassword (hashedPassword password : string) : option Error :=
  match newFromHash lib hashedPassword with
  | Err e => Some e
  | Ok p =>
      let otherP := {| hash := bcrypt password (cost p) (salt p);
                       salt := salt p; cost := cost p |} in
      if String.eqb (Hash lib p) (Hash lib otherP) then None
      else Some ErrMismatchedHashAndPassword
  end.

(** [bcrypt.Cost(hashedPassword)]. *)
Definition Cost (hashedPassword : string) : result Error nat :=
  match newFromHash lib hashedPassword with
  | Err e => Err e
  | Ok p => Ok (cost p)
  end.

End Bcrypt.

End bcrypt.

(* ===================================================================== *)
(** * internal/domain/user *)
(* ===================================================================== *)

Module user.

(** Modelled from the spec: the [User] entity is declared in a file of the
    package that is not among the sources; its fields are the six columns
    the repository scans (id, email, password_hash, created_at,
    updated_at, deleted_at), the last one nullable. *)
Record User := {
  ID : N;
  Email : string;
  PasswordHash : string;
  CreatedAt : Time;
  UpdatedAt : Time;
  DeletedAt : option Time
}.

(** errors.go, and the error values that reach the service from outside:
    [Wrapf ctx err] is [fmt.Errorf(ctx + ": %w", err)]. *)
Inductive Error :=
| ErrNotFound
| ErrEmailExists
| ErrInvalidCredentials
| ErrInvalidEmail
| ErrPasswordTooShort
| ErrPasswordTooLong
| ValidationError (Field Message : string)
| Wrapf (context : string) (err : Error)
| BcryptError (err : bcrypt.Error)
| DriverError (msg : string).

Definition sentinel_eqb (a b : Error) : bool :=
  match a, b with
  | ErrNotFound, ErrNotFound
  | ErrEmailExists, ErrEmailExists
  | ErrInvalidCredentials, ErrInvalidCredentials
  | ErrInvalidEmail, ErrInvalidEmail
  | ErrPasswordTooShort, ErrPasswordTooShort
  | ErrPasswordTooLong, ErrPasswordTooLong => true
  | _, _ => false
  end.

(** [errors.Is(err, target)] for a sentinel target: [err] or something it
    wraps is the target. *)
Fixpoint errors_Is (err target : Error) : bool :=
  sentinel_eqb err target
  || match err with
     | Wrapf _ inner => errors_Is inner target
     | _ => false
     end.

(** [errors.As(err, &validationErr)]. *)
Fixpoint errors_As_ValidationError (err : Error) : option (string * string) :=
  match err with
  | ValidationError f m => Some (f, m)
  | Wrapf _ inner => errors_As_ValidationError inner
  | _ => None
  end.

(** The [Error] method of a [ValidationError]. *)
Definition ValidationError_Error (f m : string) : string := f ++ ": " ++ m.

(** The interface of repository.go.  A store of type [DB] stands behind
    it; the two lookups do not change it. *)
Class Repository (DB : Type) := {
  repo_Create : User -> DB -> result Error User * DB;
  repo_FindByID : N -> DB -> result Error (option User);
  repo_FindByEmail : string -> DB -> result Error (option User);
  repo_Update : User -> DB -> result Error unit * DB;
  repo_Delete : N -> DB -> result Error unit * DB
}.

Definition MinPasswordLength : nat := 8.
Definition MaxPasswordLength : nat := 72.
Definition bcryptCost : nat := 12.

(* ------------------------------------------------------------------- *)
(** ** emailRegex: ^[a-zA-Z0-9._%+-]+@[a-zA-Z0-9.-]+\.[a-zA-Z]{2,}$ *)

Definition in_range (lo hi : nat) (c : ascii) : bool :=
  (lo <=? nat_of_ascii c)%nat && (nat_of_ascii c <=? hi)%nat.

Definition is_letter (c : ascii) : bool := in_range 65 90 c || in_range 97 122 c.
Definition is_alnum (c : ascii) : bool := is_letter c || in_range 48 57 c.

Definition one_of (set : string) (c : ascii) : bool :=
  existsb (Ascii.eqb c) (list_ascii_of_string set).

Definition local_char (c : ascii) : bool := is_alnum c || one_of "._%+-" c.
Definition domain_char (c : ascii) : bool := is_alnum c || one_of ".-" c.

(** The text before and after the first occurrence of [sep]. *)
Fixpoint cut_first (sep : ascii) (s : list ascii) : option (list ascii * list ascii) :=
  match s with
  | [] => None
  | c :: rest =>
      if Ascii.eqb c sep then Some ([], rest)
      else match cut_first sep rest with
           | Some (before, after) => Some (c :: before, after)
           | None => None
           end
  end.

(** The text before and after the last occurrence of [sep]. *)
Definition cut_last (sep : ascii) (s : list ascii) : option (list ascii * list ascii) :=
  match cut_first sep (rev s) with
  | Some (after_rev, before_rev) => Some (rev before_rev, rev after_rev)
  | None => None
  end.

Definition nonempty (s : list ascii) : bool :=
  match s with [] => false | _ => true end.

(** [emailRegex.MatchString]: the local part is what precedes the first
    '@' (its class has no '@'), the top-level label what follows the last
    '.' (its class has no '.'). *)
Definition emailRegex_MatchString (s : string) : bool :=
  match cut_first "@"%char (list_ascii_of_string s) with
  | None => false
  | Some (local, rest) =>
      nonempty local && forallb local_char local
      && match cut_last "."%char rest with
         | None => false
         | Some (domain, tld) =>
             nonempty domain && forallb domain_char domain
             && (2 <=? length tld)%nat && forallb is_letter tld
         end
  end.

Definition validateEmail (email : string) : option Error :=
  if String.eqb email "" then Some (ValidationError "email" "email is required")
  else if negb (emailRegex_MatchString email) then Some ErrInvalidEmail
  else None.

Definition validatePassword (password : string) : option Error :=
  if String.eqb password "" then Some (ValidationError "password" "password is required")
  else if (len password <? MinPasswordLength)%nat then Some ErrPasswordTooShort
  else if (MaxPasswordLength <? len password)%nat then Some ErrPasswordTooLong
  else None.

(* ------------------------------------------------------------------- *)
(** ** The service of repository.go (validation, bcrypt cost 12) *)

Section Service.

Context {DB : Type} {repo : Repository DB}.
Variable lib : bcrypt.Backend.

(** A service method: it runs against the store and returns its
    [(T, error)] with the store it leaves. *)
Definition M (A : Type) : Type := DB -> result Error A * DB.

Definition ret {A} (a : A) : M A := fun db => (Ok a, db).
Definition fail {A} (e : Error) : M A := fun db => (Err e, db).

Definition bind {A B} (m : M A) (k : A -> M B) : M B :=
  fun db =>
    match m db with
    | (Ok a, db') => k a db'
    | (Err e, db') => (Err e, db')
    end.

(** [if err != nil { return nil, fmt.Errorf(ctx + ": %w", err) }]. *)
Definition wrap {A} (ctx : string) (m : M A) : M A :=
  fun db =>
    match m db with
    | (Err e, db') => (Err (Wrapf ctx e), db')
    | r => r
    end.

Definition query {A} (q : DB -> result Error A) : M A := fun db => (q db, db).

(** A step that only looks at the store. *)
Definition readonly {A} (m : M A) : Prop := forall db, snd (m db) = db.

(** [if err := validate(x); err != nil { return nil, err }]. *)
Definition check (v : option Error) : M unit :=
  match v with
  | Some e => fail e
  | None => ret tt
  end.

Notation "x <- m ;; k" := (bind m (fun x => k))
  (at level 61, m at next level, right associativity).
Notation "m ;;; k" := (bind m (fun _ => k))
  (at level 61, right associativity).

(** [hashPassword]; [salt] is the salt bcrypt draws. *)
Definition hashPassword (salt password : string) : result bcrypt.Error string :=
  bcrypt.GenerateFromPassword lib salt password bcryptCost.

Definition hashing (salt password : string) : M string :=
  fun db =>
    match hashPassword salt password with
    | Ok h => (Ok h, db)
    | Err e => (Err (Wrapf "hashing password" (BcryptError e)), db)
    end.

Definition Create (salt email password : string) : M User :=
  check (validateEmail email) ;;;
  check (validatePassword password) ;;;
  existing <- wrap "checking email existence" (query (repo_FindByEmail email)) ;;
  match existing with
  | Some _ => fail ErrEmailExists
  | None =>
      hashedPassword <- hashing salt password ;;
      let user := {| ID := 0; Email := ToLower email; PasswordHash := hashedPassword;
                     CreatedAt := 0%Z; UpdatedAt := 0%Z; DeletedAt := None |} in
      wrap "creating user" (repo_Create user)
  end.

Definition GetByID (id : N) : M User :=
  user <- wrap "finding user by id" (query (repo_FindByID id)) ;;
  match user with
  | None => fail ErrNotFound
  | Some u => ret u
  end.

Definition with_Email (u : User) (email : string) : User :=
  {| ID := ID u; Email := email; PasswordHash := PasswordHash u;
     CreatedAt := CreatedAt u; UpdatedAt := UpdatedAt u; DeletedAt := DeletedAt u |}.

Definition with_PasswordHash (u : User) (h : string) : User :=
  {| ID := ID u; Email := Email u; PasswordHash := h;
     CreatedAt := CreatedAt u; UpdatedAt := UpdatedAt u; DeletedAt := DeletedAt u |}.

(** Step 2 of [Update]: the address, when one is given and differs. *)
Definition update_email (id : N) (email : string) (user : User) : M User :=
  if negb (String.eqb email "") && negb (String.eqb email (Email user)) then
    check (validateEmail email) ;;;
    existing <- wrap "checking email" (query (repo_FindByEmail email)) ;;
    match existing with
    | Some other =>
        if negb (N.eqb (ID other) id) then fail ErrEmailExists
        else ret (with_Email user (ToLower email))
    | None => ret (with_Email user (ToLower email))
    end
  else ret user.

(** Step 3 of [Update]: the password, when one is given. *)
Definition update_password (salt password : string) (user : User) : M User :=
  if negb (String.eqb password "") then
    check (validatePassword password) ;;;
    hashedPassword <- hashing salt password ;;
    ret (with_PasswordHash user hashedPassword)
  else ret user.

Definition Update (salt : string) (id : N) (email password : string) : M User :=
  found <- wrap "finding user" (query (repo_FindByID id)) ;;
  match found with
  | None => fail ErrNotFound
  | Some user =>
      user <- update_email id email user ;;
      user <- update_password salt password user ;;
      wrap "updating user" (repo_Update user) ;;;
      ret user
  end.

Definition Delete (id : N) : M unit :=
  found <- wrap "finding user" (query (repo_FindByID id)) ;;
  match found with
  | None => fail ErrNotFound
  | Some _ => wrap "deleting user" (repo_Delete id)
  end.

Definition Authenticate (email password : string) : M User :=
  found <- wrap "finding user" (query (repo_FindByEmail (ToLower email))) ;;
  match found with
  | None => fail ErrInvalidCredentials
  | Some user =>
      match bcrypt.CompareHashAndPassword lib (PasswordHash user) password with
      | Some _ => fail ErrInvalidCredentials
      | None => ret user
      end
  end.

End Service.

End user.

(** ** The service of service.go (no validation, bcrypt's default cost) *)

Module user_plain.

Import user.

(** service.go declares its own sentinels; [ErrUserNotFound] has the text
    of [ErrNotFound]. *)
Definition ErrUserNotFound : Error := ErrNotFound.

Section Service.

Context {DB : Type} {repo : Repository DB}.
Variable lib : bcrypt.Backend.

Definition Login (email password : string) : M User :=
  fun db =>
    match repo_FindByEmail email db with
    | Err err => (Err err, db)
    | Ok None => (Err ErrInvalidCredentials, db)
    | Ok (Some u) =>
        match bcrypt.CompareHashAndPassword lib (PasswordHash u) password with
        | Some _ => (Err ErrInvalidCredentials, db)
        | None => (Ok u, db)
        end
    end.

(** [Create(ctx, u)]: the caller has put the plain password in
    [u.PasswordHash]; the error of the lookup is dropped. *)
Definition Create (salt : string) (u : User) : M User :=
  fun db =>
    match repo_FindByEmail (Email u) db with
    | Ok (Some _) => (Err ErrEmailExists, db)
    | _ =>
        match bcrypt.GenerateFromPassword lib salt (PasswordHash u) bcrypt.DefaultCost with
        | Err err => (Err (BcryptError err), db)
        | Ok hashedPassword => repo_Create (with_PasswordHash u hashedPassword) db
        end
    end.

Definition GetByID (id : N) : M User :=
  fun db =>
    match repo_FindByID id db with
    | Err err => (Err err, db)
    | Ok None => (Err ErrUserNotFound, db)
    | Ok (Some u) => (Ok u, db)
    end.

Definition Update (salt : string) (u : User) : M unit :=
  fun db =>
    match bcrypt.GenerateFromPassword lib salt (PasswordHash u) bcrypt.DefaultCost with
    | Err err => (Err (BcryptError err), db)
    | Ok hashedPassword => repo_Update (with_PasswordHash u hashedPassword) db
    end.

Definition Delete (id : N) : M unit := repo_Delete id.

End Service.

End user_plain.

(* ===================================================================== *)
(** * internal/repository/mysql: the statements on the users table *)
(* ===================================================================== *)

Module mysql.

Import user.

(** The users table of the migration: its rows, the next AUTO_INCREMENT
    value and the server's NOW().  Failures of the connection and the
    widths of the columns are not modelled. *)
Record DB := {
  users : list User;
  AUTO_INCREMENT : N;
  NOW : Time
}.

(** Equality of the email column under its case-insensitive collation,
    on ASCII letters. *)
Definition collate_eqb (a b : string) : bool := String.eqb (ToLower a) (ToLower b).

Definition live (u : User) : bool :=
  match DeletedAt u with None => true | Some _ => false end.

(** WHERE id = ? AND deleted_at IS NULL *)
Definition where_id (id : N) (u : User) : bool := N.eqb (ID u) id && live u.

(** WHERE email = ? AND deleted_at IS NULL *)
Definition where_email (email : string) (u : User) : bool :=
  collate_eqb (Email u) email && live u.

(** The UNIQUE KEY uk_users_email, which spans deleted rows too. *)
Definition email_taken (email : string) (except : N) (rows : list User) : bool :=
  existsb (fun u => collate_eqb (Email u) email && negb (N.eqb (ID u) except)) rows.

Definition FindByID (id : N) (db : DB) : result Error (option User) :=
  Ok (find (where_id id) (users db)).

Definition FindByEmail (email : string) (db : DB) : result Error (option User) :=
  Ok (find (where_email email) (users db)).

Definition with_ID (u : User) (id : N) : User :=
  {| ID := id; Email := Email u; PasswordHash := PasswordHash u;
     CreatedAt := CreatedAt u; UpdatedAt := UpdatedAt u; DeletedAt := DeletedAt u |}.

(** INSERT INTO users (email, password_hash, created_at, updated_at)
    VALUES (?, ?, NOW(), NOW()); the struct gets the generated id. *)
Definition Create (u : User) (db : DB) : result Error User * DB :=
  if existsb (fun r => collate_eqb (Email r) (Email u)) (users db)
  then (Err (Wrapf "executing insert" (DriverError "Duplicate entry for key uk_users_email")), db)
  else
    let id := AUTO_INCREMENT db in
    let row := {| ID := id; Email := Email u; PasswordHash := PasswordHash u;
                  CreatedAt := NOW db; UpdatedAt := NOW db; DeletedAt := None |} in
    (Ok (with_ID u id),
     {| users := users db ++ [row]; AUTO_INCREMENT := id + 1; NOW := NOW db |}).

(** UPDATE users SET email = ?, password_hash = ?, updated_at = NOW()
    WHERE id = ? AND deleted_at IS NULL *)
Definition Update (u : User) (db : DB) : result Error unit * DB :=
  if existsb (where_id (ID u)) (users db) && email_taken (Email u) (ID u) (users db)
  then (Err (Wrapf "executing update" (DriverError "Duplicate entry for key uk_users_email")), db)
  else
    let set r :=
      if where_id (ID u) r
      then {| ID := ID r; Email := Email u; PasswordHash := PasswordHash u;
              CreatedAt := CreatedAt r; UpdatedAt := NOW db; DeletedAt := DeletedAt r |}
      else r in
    (Ok tt, {| users := map set (users db); AUTO_INCREMENT := AUTO_INCREMENT db;
               NOW := NOW db |}).

(** UPDATE users SET deleted_at = NOW() WHERE id = ? AND deleted_at IS NULL *)
Definition Delete (id : N) (db : DB) : result Error unit * DB :=
  let set r :=
    if where_id id r
    then {| ID := ID r; Email := Email r; PasswordHash := PasswordHash r;
            CreatedAt := CreatedAt r; UpdatedAt := UpdatedAt r;
            DeletedAt := Some (NOW db) |}
    else r in
  (Ok tt, {| users := map set (users db); AUTO_INCREMENT := AUTO_INCREMENT db;
             NOW := NOW db |}).

#[global] Instance UserRepository : Repository DB := {
  repo_Create := Create;
  repo_FindByID := FindByID;
  repo_FindByEmail := FindByEmail;
  repo_Update := Update;
  repo_Delete := Delete
}.

End mysql.

(* ===================================================================== *)
(** * internal/handler/http/user_handler.go *)
(* ===================================================================== *)

Module handler.

Import auth user.

Definition writeJSON (status : N) (data : Payload) : Response :=
  {| Status := status; Written := data |}.

Definition writeError (status : N) (message : string) : Response :=
  writeJSON status (ErrorJSON message).

Definition handleServiceError (err : Error) : Response :=
  if errors_Is err ErrNotFound then writeError StatusNotFound "user not found"
  else if errors_Is err ErrEmailExists then writeError StatusConflict "email already exists"
  else if errors_Is err ErrInvalidCredentials
    then writeError StatusUnauthorized "invalid email or password"
  else if errors_Is err ErrInvalidEmail then writeError StatusBadRequest "invalid email format"
  else if errors_Is err ErrPasswordTooShort
    then writeError StatusBadRequest "password must be at least 8 characters"
  else if errors_Is err ErrPasswordTooLong
    then writeError StatusBadRequest "password must be at most 72 characters"
  else
    match errors_As_ValidationError err with
    | Some (f, m) => writeError StatusBadRequest (ValidationError_Error f m)
    | None => writeError StatusInternalServerError "internal server error"
    end.

Section Handlers.

Context {DB : Type} {repo : Repository DB}.
Variable jwtlib : auth.Backend.
Variable lib : bcrypt.Backend.

(** The handler holds the service (the repository instance) and the
    token manager. *)
Record UserHandler := { jwtManager : JWTManager }.

(** What a request draws from its environment: the clock and the salt of
    a bcrypt digest. *)
Record Env := { now : Time; salt : string }.

Definition register (env : Env) : Handler DB :=
  fun r db =>
    match RequestBody r with
    | InvalidJSON => (writeError StatusBadRequest "invalid JSON format", db)
    | JSONObject email password =>
        match user.Create lib (salt env) email password db with
        | (Err err, db') => (handleServiceError err, db')
        | (Ok newUser, db') =>
            (writeJSON StatusCreated (UserJSON (ID newUser) (user.Email newUser)), db')
        end
    end.

Definition login (h : UserHandler) (env : Env) : Handler DB :=
  fun r db =>
    match RequestBody r with
    | InvalidJSON => (writeError StatusBadRequest "invalid JSON format", db)
    | JSONObject email password =>
        match user.Authenticate lib email password db with
        | (Err err, db') => (handleServiceError err, db')
        | (Ok authenticatedUser, db') =>
            match GenerateToken jwtlib (jwtManager h) (now env)
                    (ID authenticatedUser) (user.Email authenticatedUser) with
            | Err _ =>
                (writeError StatusInternalServerError "failed to generate token", db')
            | Ok token =>
                (writeJSON StatusOK
                   (LoginJSON token (ID authenticatedUser) (user.Email authenticatedUser)),
                 db')
            end
        end
    end.

Definition get : Handler DB :=
  fun r db =>
    match ParseUint (PathValue_id r) with
    | Err _ => (writeError StatusBadRequest "invalid user ID", db)
    | Ok id =>
        match user.GetByID id db with
        | (Err err, db') => (handleServiceError err, db')
        | (Ok foundUser, db') =>
            (writeJSON StatusOK (UserJSON (ID foundUser) (user.Email foundUser)), db')
        end
    end.

Definition update (env : Env) : Handler DB :=
  fun r db =>
    match ParseUint (PathValue_id r) with
    | Err _ => (writeError StatusBadRequest "invalid user ID", db)
    | Ok id =>
        match GetClaimsFromContext r with
        | None => (writeError StatusUnauthorized "unauthorized", db)
        | Some claims =>
            if negb (N.eqb (UserID claims) id)
            then (writeError StatusForbidden "you can only update your own profile", db)
            else
              match RequestBody r with
              | InvalidJSON => (writeError StatusBadRequest "invalid JSON format", db)
              | JSONObject email password =>
                  match user.Update lib (salt env) id email password db with
                  | (Err err, db') => (handleServiceError err, db')
                  | (Ok updatedUser, db') =>
                      (writeJSON StatusOK
                         (UserJSON (ID updatedUser) (user.Email updatedUser)), db')
                  end
              end
        end
    end.

Definition delete : Handler DB :=
  fun r db =>
    match ParseUint (PathValue_id r) with
    | Err _ => (writeError StatusBadRequest "invalid user ID", db)
    | Ok id =>
        match GetClaimsFromContext r with
        | None => (writeError StatusUnauthorized "unauthorized", db)
        | Some claims =>
            if negb (N.eqb (UserID claims) id)
            then (writeError StatusForbidden "you can only delete your own account", db)
            else
              match user.Delete id db with
              | (Err err, db') => (handleServiceError err, db')
              | (Ok _, db') =>
                  ({| Status := StatusNoContent; Written := NoContent |}, db')
              end
        end
    end.

Definition me : Handler DB :=
  fun r db =>
    match GetClaimsFromContext r with
    | None => (writeError StatusUnauthorized "unauthorized", db)
    | Some claims =>
        match user.GetByID (UserID claims) db with
        | (Err err, db') => (handleServiceError err, db')
        | (Ok currentUser, db') =>
            (writeJSON StatusOK (UserJSON (ID currentUser) (user.Email currentUser)), db')
        end
    end.

(** The patterns [RegisterRoutes] gives to the mux. *)
Inductive Route :=
| POST_register
| POST_login
| GET_users_id
| PUT_users_id
| DELETE_users_id
| GET_me.

(** [RegisterRoutes]: the handler the mux serves a route with. *)
Definition RegisterRoutes (h : UserHandler) (authMiddleware : Middleware) (env : Env)
    (route : Route) : Handler DB :=
  match route with
  | POST_register => register env
  | POST_login => login h env
  | GET_users_id => AuthenticateFunc jwtlib authMiddleware (now env) get
  | PUT_users_id => AuthenticateFunc jwtlib authMiddleware (now env) (update env)
  | DELETE_users_id => AuthenticateFunc jwtlib authMiddleware (now env) delete
  | GET_me => AuthenticateFunc jwtlib authMiddleware (now env) me
  end.

End Handlers.

End handler.

(* ===================================================================== *)
(** * The words of the specification *)
(* ===================================================================== *)

Module spec.

(** "exactly two space-separated tokens, the first case-insensitively
    equal to Bearer": the header is a scheme, one space and a token, with
    no further space in either part. *)
Definition no_space (s : string) : Prop := free " "%char s.

Definition equal_fold (a b : string) : Prop := ToLower a = ToLower b.

Definition bearer_credential (header token : string) : Prop :=
  exists scheme,
    header = scheme ++ " " ++ token
    /\ no_space scheme /\ no_space token
    /\ equal_fold scheme "Bearer".

(** The kinds of failure the specification gives the codec's Verify. *)
Inductive VerifyFailure :=
| MalformedTokenError
| AlgorithmMismatchError
| BadSignatureError
| ExpiredTokenError
| NotYetValidError.

(** "WeakInputError if the plaintext is empty, shorter than a configured
    minimum (8), or longer than the maximum supported input length (72
    bytes)", lengths counted in bytes. *)
Definition weak_input (plaintext : string) : Prop :=
  plaintext = "" \/ (len plaintext < 8)%nat \/ (72 < len plaintext)%nat.

(** The characters of a UTF-8 text: its bytes that are not continuation
    bytes (10xxxxxx). *)
Definition characters (s : string) : nat :=
  List.length
    (filter (fun c => negb ((128 <=? nat_of_ascii c)%nat && (nat_of_ascii c <=? 191)%nat))
       (list_ascii_of_string s)).

(** The three service errors that make up WeakInputError. *)
Definition WeakInputError (e : user.Error) : Prop :=
  e = user.ValidationError "password" "password is required"
  \/ e = user.ErrPasswordTooShort
  \/ e = user.ErrPasswordTooLong.

End spec.

(* ===================================================================== *)
(** * The handler that goes with service.go (no token, no gate) *)
(* ===================================================================== *)

Module handler_plain.

Import auth user.

(** What these handlers read of a request: the method, the path of the
    URL and the body as the JSON decoder reads it. *)
Record Request := {
  Method : string;
  URL_Path : string;
  RequestBody : Body
}.

Definition MethodPost : string := "POST".
Definition StatusMethodNotAllowed : N := 405.


(** [w.WriteHeader(status)] and nothing else. *)
Definition WriteHeader (status : N) : Response :=
  {| Status := status; Written := NoContent |}.

Definition writeJSON (status : N) (v : Payload) : Response :=
  {| Status := status; Written := v |}.

Section Handlers.

Context {DB : Type} {repo : Repository DB}.
Variable lib : bcrypt.Backend.

(** A handler against the store; [salt] is what bcrypt draws when the
    request makes it hash. *)
Definition Handler := Request -> DB -> Response * DB.

(** [err == user.ErrX]: the very sentinel, not something that wraps it;
    its [Error()] is then the sentinel's text. *)
Definition create (salt : string) : Handler :=
  fun r db =>
    match RequestBody r with
    | InvalidJSON => (http_Error "invalid json" StatusBadRequest, db)
    | JSONObject email password =>
        if String.eqb email "" || String.eqb password ""
        then (http_Error "email and password required" StatusBadRequest, db)
        else
          let u := {| ID := 0; Email := email; PasswordHash := password;
                      CreatedAt := 0%Z; UpdatedAt := 0%Z; DeletedAt := None |} in
          match user_plain.Create lib salt u db with
          | (Err err, db') =>
              if sentinel_eqb err ErrEmailExists
              then (http_Error "email already exists" StatusConflict, db')
              else (http_Error "internal error" StatusInternalServerError, db')
          | (Ok u', db') => (writeJSON StatusCreated (UserJSON (ID u') (user.Email u')), db')
          end
    end.

Definition users (salt : string) : Handler :=
  fun r db =>
    if String.eqb (Method r) MethodPost then create salt r db
    else (WriteHeader StatusMethodNotAllowed, db).

Definition get (id : N) : Handler :=
  fun r db =>
    match user_plain.GetByID id db with
    | (Err err, db') =>
        if sentinel_eqb err user_plain.ErrUserNotFound
        then (http_Error "user not found" StatusNotFound, db')
        else (http_Error "internal error" StatusInternalServerError, db')
    | (Ok u, db') => (writeJSON StatusOK (UserJSON (ID u) (user.Email u)), db')
    end.

Definition update (salt : string) (id : N) : Handler :=
  fun r db =>
    match RequestBody r with
    | InvalidJSON => (http_Error "invalid json" StatusBadRequest, db)
    | JSONObject email password =>
        if String.eqb email "" || String.eqb password ""
        then (http_Error "email and password required" StatusBadRequest, db)
        else
          let u := {| ID := id; Email := email; PasswordHash := password;
                      CreatedAt := 0%Z; UpdatedAt := 0%Z; DeletedAt := None |} in
          match user_plain.Update lib salt u db with
          | (Err _, db') => (http_Error "internal error" StatusInternalServerError, db')
          | (Ok _, db') => (WriteHeader StatusNoContent, db')
          end
    end.

Definition delete (id : N) : Handler :=
  fun r db =>
    match user_plain.Delete id db with
    | (Err _, db') => (http_Error "internal error" StatusInternalServerError, db')
    | (Ok _, db') => (WriteHeader StatusNoContent, db')
    end.


Definition login : Handler :=
  fun r db =>
    if negb (String.eqb (Method r) MethodPost)
    then (WriteHeader StatusMethodNotAllowed, db)
    else
      match RequestBody r with
      | InvalidJSON => (http_Error "invalid json" StatusBadRequest, db)
      | JSONObject email password =>
          if String.eqb email "" || String.eqb password ""
          then (http_Error "email and password required" StatusBadRequest, db)
          else
            match user_plain.Login lib email password db with
            | (Err err, db') =>
                if sentinel_eqb err ErrInvalidCredentials
                then (http_Error "invalid email or password" StatusUnauthorized, db')
                else (http_Error "internal error" StatusInternalServerError, db')
            | (Ok u, db') => (writeJSON StatusOK (UserJSON (ID u) (user.Email u)), db')
            end
      end.

End Handlers.

End handler_plain.

(* ===================================================================== *)
(** * Vocabulary of the further properties *)
(* ===================================================================== *)

Module vocabulary.

Import auth.
Import user.

(** The registered claims pass the validator at [now]: an expiry, when
    there is one, lies after [now]; a not-before, when there is one, does
    not. *)
Definition in_time (rc : jwt.RegisteredClaims) (now : Time) : Prop :=
  (forall exp, jwt.ExpiresAt rc = Some exp -> (now < exp)%Z)
  /\ (forall nbf, jwt.NotBefore rc = Some nbf -> (nbf <= now)%Z).

(** The strings [emailRegex] describes: a local part, "@", a domain, "."
    and a last label of two letters or more. *)
Definition email_shape (s : string) : Prop :=
  exists local domain tld : list ascii,
    list_ascii_of_string s = (local ++ "@"%char :: domain ++ "."%char :: tld)%list
    /\ local <> [] /\ Forall (fun c => local_char c = true) local
    /\ domain <> [] /\ Forall (fun c => domain_char c = true) domain
    /\ (2 <= List.length tld)%nat /\ Forall (fun c => is_letter c = true) tld.

(** The digest of [password] at [bcryptCost] under [salt]. *)
Definition digest12 (lib : bcrypt.Backend) (salt password : string) : string :=
  bcrypt.Hash lib {| bcrypt.hash := bcrypt.bcrypt lib password bcryptCost salt;
                     bcrypt.salt := salt; bcrypt.cost := bcryptCost |}.

(** [Update]'s last step: the user is written and returned. *)
Definition written {DB} {repo : Repository DB} (u : User) (db : DB) : result Error User * DB :=
  match repo_Update u db with
  | (Ok _, d) => (Ok u, d)
  | (Err e, d) => (Err (Wrapf "updating user" e), d)
  end.




(** From [db] to [db'] no row other than the one of [id] has changed, and
    no row was added or removed. *)
Definition only_row_changed (id : N) (db db' : mysql.DB) : Prop :=
  exists f,
    mysql.users db' = map f (mysql.users db)
    /\ (forall row, ID row <> id -> f row = row)
    /\ mysql.AUTO_INCREMENT db' = mysql.AUTO_INCREMENT db.

End vocabulary.

(* ===================================================================== *)
(** * A small world to run the definitions on *)
(* ===================================================================== *)

Module sample.

Import auth.

(** A codec backend: the MAC is the key followed by the text, the signed
    text spells the algorithm and the address, and a string decodes to
    what a table of known tokens says. *)
Definition toy_hmac (h : jwt.Hash) (key msg : string) : string := key ++ "#" ++ msg.

Definition toy_SigningString (alg : string) (c : Claims) : string :=
  alg ++ "." ++ Email c.

Definition known_backend (known : list (string * jwt.Segments Claims)) : Backend :=
  {| jwt.hmac := toy_hmac;
     jwt.SigningString := toy_SigningString;
     jwt.EncodeSegment := fun sig => sig;
     jwt.DecodeSegments :=
       fun s => option_map snd (find (fun e => String.eqb (fst e) s) known) |}.

(** The manager of the default configuration. *)
Definition manager : JWTManager :=
  NewJWTManager "your-256-bit-secret-key-change-in-production" (15 * Minute)%Z "go-basics".

Definition intruder : JWTManager :=
  NewJWTManager "some-other-secret" (15 * Minute)%Z "go-basics".

(** Half a second past a whole second. *)
Definition t0 : Time := (1700000000 * Second + 500000000)%Z.

Definition alice_claims : Claims := issued_claims manager t0 5 "alice@example.com".

Definition alice_token : string :=
  jwt.SignedString (known_backend []) jwt.SHA256 alice_claims (secret manager).

(** The same claims signed with another secret. *)
Definition forged_token : string :=
  jwt.SignedString (known_backend []) jwt.SHA256 alice_claims (secret intruder).

(** The same claims under the algorithm "none", with an empty signature. *)
Definition none_token : string := toy_SigningString "none" alice_claims ++ ".".

Definition none_segments : jwt.Segments Claims :=
  {| jwt.signing_input := toy_SigningString "none" alice_claims;
     jwt.alg := "none";
     jwt.claims := alice_claims;
     jwt.signature := Some "" |}.

Definition backend : Backend :=
  known_backend
    [ (alice_token, jwt.signed_segments (known_backend []) jwt.SHA256 alice_claims (secret manager));
      (forged_token, jwt.signed_segments (known_backend []) jwt.SHA256 alice_claims (secret intruder));
      (none_token, none_segments) ].

(** A bcrypt backend: the hash is the salt followed by the key material,
    a digest spells its parts, and a string parses to what a table of
    known digests says. *)
Definition toy_eksblowfish (cost : nat) (salt : string) (key : list ascii) : string :=
  salt ++ string_of_list_ascii key.

Definition toy_Hash (h : bcrypt.hashed) : string :=
  "$2a$" ++ NilEmpty.string_of_uint (Nat.to_uint (bcrypt.cost h)) ++ "$"
  ++ bcrypt.salt h ++ bcrypt.hash h.

Definition known_digests (known : list bcrypt.hashed) : bcrypt.Backend :=
  {| bcrypt.eksblowfish := toy_eksblowfish;
     bcrypt.Hash := toy_Hash;
     bcrypt.newFromHash :=
       fun s =>
         match find (fun h => String.eqb (toy_Hash h) s) known with
         | Some h => Ok h
         | None => Err bcrypt.ErrHashTooShort
         end |}.

Definition salt0 : string := "0123456789abcdef".

Definition digest_of (cost : nat) (password : string) : bcrypt.hashed :=
  {| bcrypt.hash := bcrypt.bcrypt (known_digests []) password cost salt0;
     bcrypt.salt := salt0;
     bcrypt.cost := cost |}.

(** A password of 72 bytes, and the same with one byte more. *)
Definition long_password : string := string_of_list_ascii (repeat "a"%char 72).

(** Seven times the letter e with an acute accent, two bytes each. *)
Definition accented_password : string :=
  string_of_list_ascii (concat (repeat [ascii_of_nat 195; ascii_of_nat 169] 7)).

(** Eight bytes, and the same twice around a NUL byte: seventeen bytes. *)
Definition short_password : string := "password".

Definition hasher : bcrypt.Backend :=
  known_digests
    [ digest_of 12 "password123"; digest_of 12 short_password;
      digest_of 12 long_password; digest_of 10 "password123" ].

Definition alice : user.User :=
  {| user.ID := 5; user.Email := "alice@example.com";
     user.PasswordHash := toy_Hash (digest_of 12 "password123");
     user.CreatedAt := 0%Z; user.UpdatedAt := 0%Z; user.DeletedAt := None |}.

Definition bob : user.User :=
  {| user.ID := 6; user.Email := "bob@example.com";
     user.PasswordHash := toy_Hash (digest_of 12 long_password);
     user.CreatedAt := 0%Z; user.UpdatedAt := 0%Z; user.DeletedAt := None |}.

Definition db : mysql.DB :=
  {| mysql.users := [alice; bob]; mysql.AUTO_INCREMENT := 7; mysql.NOW := t0 |}.

Definition env : handler.Env := {| handler.now := t0; handler.salt := salt0 |}.

(** A request with the given Authorization header, path id and body. *)
Definition request (authorization : option string) (id : string) (body : Body) : Request :=
  {| Authorization := authorization; PathValue_id := id;
     RequestBody := body; ContextClaims := None |}.

End sample.

(* ===================================================================== *)
(** * Properties *)
(* ===================================================================== *)

Import auth.

(** ** Splitting the Authorization header *)

Section SplitFacts.

Variable sep : ascii.

Lemma Split_not_nil s : Split s sep <> [].
Proof.
  induction s as [|c s IH]; simpl; [discriminate|].
  destruct (Ascii.eqb c sep); [discriminate|].
  destruct (Split s sep); discriminate.
Qed.

Lemma Split_whole s : free sep s -> Split s sep = [s].
Proof.
  unfold free. induction s as [|c s IH]; simpl; intros H; [reflexivity|].
  destruct (Ascii.eqb_spec c sep) as [->|Hne]; [tauto|].
  rewrite IH by tauto. reflexivity.
Qed.

Lemma Split_app a b : free sep a -> Split (a ++ String sep b) sep = a :: Split b sep.
Proof.
  unfold free. induction a as [|c a IH]; simpl; intros H.
  - rewrite Ascii.eqb_refl. reflexivity.
  - destruct (Ascii.eqb_spec c sep) as [->|Hne]; [tauto|].
    rewrite IH by tauto. reflexivity.
Qed.

Lemma Split_singleton_inv s p : Split s sep = [p] -> s = p /\ free sep s.
Proof.
  unfold free. revert p. induction s as [|c s IH]; simpl; intros p H.
  - inversion H. split; [reflexivity|tauto].
  - destruct (Ascii.eqb_spec c sep) as [->|Hne].
    + inversion H. exfalso. eapply Split_not_nil; eauto.
    + destruct (Split s sep) as [|q qs] eqn:E; [inversion H; subst|].
      * exfalso. eapply Split_not_nil; eauto.
      * inversion H; subst. destruct (IH q eq_refl) as [-> Hn].
        split; [reflexivity|]. intros [Hc|Hc]; [congruence|tauto].
Qed.

Lemma Split_cons_inv s p ps :
  Split s sep = p :: ps -> ps <> [] ->
  exists rest, s = p ++ String sep rest /\ free sep p /\ Split rest sep = ps.
Proof.
  unfold free. revert p ps. induction s as [|c s IH]; simpl; intros p ps H Hps.
  - inversion H; subst. congruence.
  - destruct (Ascii.eqb_spec c sep) as [->|Hne].
    + inversion H; subst. exists s. simpl. auto.
    + destruct (Split s sep) as [|q qs] eqn:E.
      * inversion H; subst. congruence.
      * inversion H; subst.
        destruct (IH q ps eq_refl Hps) as (rest & -> & Hn & Hr).
        exists rest. simpl. split; [reflexivity|]. split; [|exact Hr].
        intros [Hc|Hc]; [congruence|tauto].
Qed.

(** A string splits in two exactly when it is two separator-free parts
    around one separator. *)
Lemma Split_two s a b :
  Split s sep = [a; b] <-> s = a ++ String sep b /\ free sep a /\ free sep b.
Proof.
  split.
  - intros H.
    destruct (Split_cons_inv s a [b] H) as (rest & -> & Ha & Hr); [discriminate|].
    destruct (Split_singleton_inv rest b Hr) as [-> Hb]. auto.
  - intros (-> & Ha & Hb). rewrite Split_app by exact Ha.
    rewrite Split_whole by exact Hb. reflexivity.
Qed.

End SplitFacts.

Lemma extractBearerToken_Ok r token :
  extractBearerToken r = Ok token <->
  exists scheme,
    Split (Header_Get_Authorization r) " "%char = [scheme; token]
    /\ ToLower scheme = "bearer".
Proof.
  unfold extractBearerToken. split.
  - destruct (String.eqb (Header_Get_Authorization r) ""); [discriminate|].
    destruct (Split _ _) as [|scheme [|tok [|x xs]]]; try discriminate.
    destruct (String.eqb_spec (ToLower scheme) "bearer") as [E|E]; simpl; [|discriminate].
    intros H. inversion H; subst. eauto.
  - intros (scheme & HS & HL).
    destruct (String.eqb_spec (Header_Get_Authorization r) "") as [E|_].
    + rewrite E in HS. discriminate.
    + rewrite HS, HL. reflexivity.
Qed.

(** C4: the gate takes a token out of a request exactly when the
    Authorization header is two space-separated parts of which the first
    equals "Bearer" up to case; that token is what the codec is asked to
    verify.  For every other header (none, another scheme, "Bearer" alone,
    more than two parts) the answer is 401 "missing or invalid authorization
    header", whatever the codec, the manager and the clock are: the codec
    is not consulted. *)
Theorem gate_extracts_exactly_bearer_credentials :
  forall (r : Request),
    (forall token,
        extractBearerToken r = Ok token
        <-> spec.bearer_credential (Header_Get_Authorization r) token)
    /\ (forall lib W (m : Middleware) now (next : Handler W) w token,
          spec.bearer_credential (Header_Get_Authorization r) token ->
          Authenticate lib m now next r w =
          match ValidateToken lib (jwtManager m) now token with
          | Err err =>
              (http_Error (if errors_Is err ErrExpiredToken
                           then "token has expired" else "invalid token")
                 StatusUnauthorized, w)
          | Ok claims => next (WithClaims r claims) w
          end)
    /\ (forall lib W (m : Middleware) now (next : Handler W) w,
          (forall token, ~ spec.bearer_credential (Header_Get_Authorization r) token) ->
          Authenticate lib m now next r w =
          (http_Error "missing or invalid authorization header" StatusUnauthorized, w)).
Proof.
  intros r.
  assert (Hiff : forall token,
             extractBearerToken r = Ok token
             <-> spec.bearer_credential (Header_Get_Authorization r) token).
  { intros token. rewrite extractBearerToken_Ok. unfold spec.bearer_credential.
    split; intros (scheme & H1 & H2).
    - apply Split_two in H1. destruct H1 as (E & Ha & Hb).
      exists scheme. repeat split; auto.
    - destruct H2 as (Ha & Hb & Hf). exists scheme. split.
      + apply Split_two. auto.
      + exact Hf. }
  split; [exact Hiff|]. split.
  - intros lib W m now next w token Hc. apply Hiff in Hc.
    unfold Authenticate. rewrite Hc.
    destruct (ValidateToken lib (jwtManager m) now token) as [c|e]; [reflexivity|].
    destruct (errors_Is e ErrExpiredToken); reflexivity.
  - intros lib W m now next w Hno. unfold Authenticate.
    destruct (extractBearerToken r) as [token|msg] eqn:E; [|reflexivity].
    exfalso. apply (Hno token). apply Hiff. reflexivity.
Qed.

(** The header "Bearer abc" carries the token "abc". *)
Lemma gate_extracts_exactly_bearer_credentials_witness :
  extractBearerToken (sample.request (Some "Bearer abc") "5" InvalidJSON) = Ok "abc".
Proof.
  pose proof (gate_extracts_exactly_bearer_credentials
                (sample.request (Some "Bearer abc") "5" InvalidJSON)) as [Hiff _].
  apply (proj2 (Hiff "abc")). clear Hiff. exists "Bearer".
  split; [reflexivity|].
  split; [unfold spec.no_space, free; cbn; intuition discriminate|].
  split; [unfold spec.no_space, free; cbn; intuition discriminate|reflexivity].
Defined.

Example gate_wrong_scheme w :
  Authenticate sample.backend (NewMiddleware sample.manager) sample.t0
    (handler.get (DB := mysql.DB)) (sample.request (Some "Token xyz") "5" InvalidJSON) w
  = (http_Error "missing or invalid authorization header" StatusUnauthorized, w).
Proof. reflexivity. Qed.

Example gate_bearer_alone w :
  Authenticate sample.backend (NewMiddleware sample.manager) sample.t0
    (handler.get (DB := mysql.DB)) (sample.request (Some "Bearer") "5" InvalidJSON) w
  = (http_Error "missing or invalid authorization header" StatusUnauthorized, w).
Proof. reflexivity. Qed.

Example gate_three_parts w :
  Authenticate sample.backend (NewMiddleware sample.manager) sample.t0
    (handler.get (DB := mysql.DB)) (sample.request (Some "Bearer abc def") "5" InvalidJSON) w
  = (http_Error "missing or invalid authorization header" StatusUnauthorized, w).
Proof. reflexivity. Qed.

Example gate_no_header w :
  Authenticate sample.backend (NewMiddleware sample.manager) sample.t0
    (handler.get (DB := mysql.DB)) (sample.request None "5" InvalidJSON) w
  = (http_Error "missing or invalid authorization header" StatusUnauthorized, w).
Proof. reflexivity. Qed.

Example gate_any_case :
  extractBearerToken (sample.request (Some "bEaReR abc") "5" InvalidJSON) = Ok "abc".
Proof. reflexivity. Qed.

(** ** The codec's two errors and the gate's three answers *)

(** What [ValidateToken] makes of the parser's verdict. *)
Lemma ValidateToken_of_parse lib m now tokenString :
  ValidateToken lib m now tokenString =
  match jwt.ParseWithClaims RegisteredClaims lib tokenString (keyFunc m) now with
  | Err errs =>
      Err (if jwt.errors_Is errs jwt.ErrTokenExpired then ErrExpiredToken else ErrInvalidToken)
  | Ok token => Ok (jwt.TokenClaims token)
  end.
Proof.
  unfold ValidateToken.
  destruct (jwt.ParseWithClaims _ _ _ _ _) as [token|errs] eqn:E.
  - replace (jwt.Valid token) with true; [reflexivity|].
    unfold jwt.ParseWithClaims in E.
    repeat match type of E with
           | match ?x with _ => _ end = _ => destruct x; try discriminate
           | (if ?x then _ else _) = _ => destruct x; try discriminate
           end.
    inversion E. reflexivity.
  - destruct (jwt.errors_Is errs jwt.ErrTokenExpired); reflexivity.
Qed.

(** C5: when the codec rejects the token of a request, the gate answers
    401 "token has expired" exactly when the codec's error is
    [ErrExpiredToken], and 401 "invalid token" for every other error of the
    codec; the two answers differ, the next handler does not run and the
    store is left as it was. *)
Theorem gate_surfaces_expiry_only :
  forall lib W (m : Middleware) now (next : Handler W) r w token err,
    extractBearerToken r = Ok token ->
    ValidateToken lib (jwtManager m) now token = Err err ->
    let expired := (http_Error "token has expired" StatusUnauthorized, w) in
    let invalid := (http_Error "invalid token" StatusUnauthorized, w) in
    (err = ErrExpiredToken -> Authenticate lib m now next r w = expired)
    /\ (err <> ErrExpiredToken -> Authenticate lib m now next r w = invalid)
    /\ (Authenticate lib m now next r w = expired <-> err = ErrExpiredToken)
    /\ expired <> invalid.
Proof.
  intros lib W m now next r w token err Hx Hv expired invalid.
  assert (Hne : expired <> invalid) by (unfold expired, invalid; intros H; inversion H).
  assert (Hrun : Authenticate lib m now next r w =
                 if errors_Is err ErrExpiredToken then expired else invalid).
  { unfold Authenticate. rewrite Hx, Hv. destruct (errors_Is err ErrExpiredToken); reflexivity. }
  rewrite Hrun. destruct err; simpl; repeat split; congruence || tauto || idtac.
  all: intros H; exfalso; apply Hne; congruence.
Qed.

(** ** Issuing and validating *)


Lemma Truncate_Second_bounds t :
  (Truncate_Second t <= t < Truncate_Second t + Second)%Z.
Proof.
  unfold Truncate_Second, Second.
  pose proof (Z.div_mod t 1000000000 ltac:(lia)).
  pose proof (Z.mod_pos_bound t 1000000000 ltac:(lia)). lia.
Qed.



(** C2 (amended): [ValidateToken] accepts a token only when its declared
    algorithm is of the HMAC family and its signature is the MAC of its
    first two segments under the manager's secret.  A token of any other
    algorithm, and a token whose signature is not that MAC (as the token
    signed under another secret is, whenever the two MACs differ), is
    answered with the one generic [ErrInvalidToken], at every instant. *)
Theorem validate_rejects_foreign_tokens :
  forall lib (m : JWTManager) (now : Time) (tokenString : string),
    (forall c,
        ValidateToken lib m now tokenString = Ok c ->
        exists s h,
          jwt.DecodeSegments lib tokenString = Some s
          /\ jwt.GetSigningMethod (jwt.alg s) = Some (jwt.SigningMethodHMAC h)
          /\ jwt.signature s = Some (jwt.hmac lib h (secret m) (jwt.signing_input s))
          /\ jwt.claims s = c)
    /\ (forall s,
          jwt.DecodeSegments lib tokenString = Some s ->
          (forall h, jwt.GetSigningMethod (jwt.alg s) <> Some (jwt.SigningMethodHMAC h)) ->
          ValidateToken lib m now tokenString = Err ErrInvalidToken)
    /\ (forall s h,
          jwt.DecodeSegments lib tokenString = Some s ->
          jwt.GetSigningMethod (jwt.alg s) = Some (jwt.SigningMethodHMAC h) ->
          jwt.signature s <> Some (jwt.hmac lib h (secret m) (jwt.signing_input s)) ->
          ValidateToken lib m now tokenString = Err ErrInvalidToken)
    /\ (forall h c other,
          tokenString = jwt.SignedString lib h c other ->
          jwt.DecodeSegments lib tokenString = Some (jwt.signed_segments lib h c other) ->
          let sstr := jwt.SigningString lib (jwt.Alg (jwt.SigningMethodHMAC h)) c in
          jwt.hmac lib h other sstr <> jwt.hmac lib h (secret m) sstr ->
          ValidateToken lib m now tokenString = Err ErrInvalidToken).
Proof.
  intros lib m now tokenString.
  assert (Hsig : forall s h,
             jwt.DecodeSegments lib tokenString = Some s ->
             jwt.GetSigningMethod (jwt.alg s) = Some (jwt.SigningMethodHMAC h) ->
             jwt.signature s <> Some (jwt.hmac lib h (secret m) (jwt.signing_input s)) ->
             ValidateToken lib m now tokenString = Err ErrInvalidToken).
  { intros s h Hd Hm Hs. rewrite ValidateToken_of_parse. unfold jwt.ParseWithClaims.
    rewrite Hd, Hm. cbn [keyFunc].
    destruct (jwt.signature s) as [sig|]; [|reflexivity].
    cbn [jwt.Verify].
    destruct (String.eqb_spec sig (jwt.hmac lib h (secret m) (jwt.signing_input s)))
      as [->|Hne]; cbn [negb]; [congruence|reflexivity]. }
  split; [|split; [|split; [exact Hsig|]]].
  - intros c. rewrite ValidateToken_of_parse. unfold jwt.ParseWithClaims.
    destruct (jwt.DecodeSegments lib tokenString) as [s|]; [|discriminate].
    destruct (jwt.GetSigningMethod (jwt.alg s)) as [meth|] eqn:Hm; [|discriminate].
    destruct meth as [h| | | | |]; cbn [keyFunc]; try discriminate.
    destruct (jwt.signature s) as [sig|] eqn:Hs; [|discriminate].
    cbn [jwt.Verify].
    destruct (String.eqb_spec sig (jwt.hmac lib h (secret m) (jwt.signing_input s)))
      as [->|Hne]; cbn [negb]; [|discriminate].
    destruct (jwt.Validate _ _); [|discriminate].
    intros H. inversion H. exists s, h. auto.
  - intros s Hd Hm. rewrite ValidateToken_of_parse. unfold jwt.ParseWithClaims.
    rewrite Hd. destruct (jwt.GetSigningMethod (jwt.alg s)) as [meth|]; [|reflexivity].
    destruct meth as [h| | | | |]; cbn [keyFunc]; try reflexivity.
    exfalso. apply (Hm h). reflexivity.
  - intros h c other _ Hd sstr Hmac.
    apply (Hsig _ h Hd); [destruct h; reflexivity|].
    cbn [jwt.signed_segments jwt.signature jwt.signing_input].
    intros E. apply Hmac. unfold sstr. congruence.
Qed.


(** A lifetime of fifteen minutes: good at 14m59s, expired at 15m1s. *)
Example fifteen_minutes :
  ValidateToken sample.backend sample.manager (sample.t0 + 14 * Minute + 59 * Second)%Z
    sample.alice_token = Ok sample.alice_claims
  /\ ValidateToken sample.backend sample.manager (sample.t0 + 15 * Minute + Second)%Z
       sample.alice_token = Err ErrExpiredToken.
Proof. split; reflexivity. Qed.


(** C2 (as stated, refuted): the token signed under another secret and the
    token of algorithm "none" are both rejected, with one and the same
    error, so no reading of the codec's errors makes the first a
    bad-signature failure and the second an algorithm-mismatch failure. *)
Lemma bad_signature_and_algorithm_not_told_apart :
  ValidateToken sample.backend sample.manager sample.t0 sample.forged_token = Err ErrInvalidToken
  /\ ValidateToken sample.backend sample.manager sample.t0 sample.none_token = Err ErrInvalidToken
  /\ ~ (exists kind : Error -> spec.VerifyFailure,
          (forall e, ValidateToken sample.backend sample.manager sample.t0 sample.forged_token
                     = Err e -> kind e = spec.BadSignatureError)
          /\ (forall e, ValidateToken sample.backend sample.manager sample.t0 sample.none_token
                        = Err e -> kind e = spec.AlgorithmMismatchError)).
Proof.
  repeat split; try reflexivity.
  intros (kind & H1 & H2).
  specialize (H1 ErrInvalidToken eq_refl). specialize (H2 ErrInvalidToken eq_refl).
  congruence.
Qed.

(** The token signed under the intruder's secret, and the one of algorithm
    "none". *)
Lemma validate_rejects_foreign_tokens_witness :
  ValidateToken sample.backend sample.manager sample.t0 sample.forged_token = Err ErrInvalidToken
  /\ ValidateToken sample.backend sample.manager sample.t0 sample.none_token = Err ErrInvalidToken.
Proof.
  split.
  - pose proof (validate_rejects_foreign_tokens sample.backend sample.manager sample.t0
                  sample.forged_token) as (_ & _ & Hsig & _).
    apply (Hsig (jwt.signed_segments (sample.known_backend []) jwt.SHA256
                   sample.alice_claims (secret sample.intruder)) jwt.SHA256);
      [reflexivity|reflexivity|].
    intros H. inversion H.
  - pose proof (validate_rejects_foreign_tokens sample.backend sample.manager sample.t0
                  sample.none_token) as (_ & Halg & _).
    apply (Halg sample.none_segments); [reflexivity|].
    intros h H. inversion H.
Defined.

(** A request bearing a token that expired a minute ago. *)
Lemma gate_surfaces_expiry_only_witness :
  Authenticate sample.backend (NewMiddleware sample.manager) (sample.t0 + 16 * Minute)%Z
    (handler.get (DB := mysql.DB))
    (sample.request (Some ("Bearer " ++ sample.alice_token)) "5" InvalidJSON) sample.db
  = (http_Error "token has expired" StatusUnauthorized, sample.db).
Proof.
  apply (gate_surfaces_expiry_only sample.backend mysql.DB (NewMiddleware sample.manager)
           (sample.t0 + 16 * Minute)%Z (handler.get (DB := mysql.DB))
           (sample.request (Some ("Bearer " ++ sample.alice_token)) "5" InvalidJSON)
           sample.db sample.alice_token ErrExpiredToken eq_refl eq_refl).
  reflexivity.
Defined.

(** ** The handlers *)

Import user.

Lemma handleServiceError_not_forbidden err :
  Status (handler.handleServiceError err) <> StatusForbidden.
Proof.
  unfold handler.handleServiceError.
  repeat match goal with
         | |- context [if ?b then _ else _] => destruct b
         end; try (cbn; discriminate).
  destruct (errors_As_ValidationError err) as [[f m]|]; cbn; discriminate.
Qed.

(** C3: update and delete of /users/{id} compare the subject id of the
    claims in the request context with the id of the path.  When they
    differ the answer is 403 and the store is untouched; when they are equal
    the handler goes on to the body and the service, and its answer is never
    403; without claims in the context the answer is 401, which is not
    403. *)
Theorem mutation_requires_own_id :
  forall DB (repo : Repository DB) lib (env : handler.Env) (r : Request) (db : DB) (id : N),
    ParseUint (PathValue_id r) = Ok id ->
    (GetClaimsFromContext r = None ->
       handler.update lib env r db = (handler.writeError StatusUnauthorized "unauthorized", db)
       /\ handler.delete r db = (handler.writeError StatusUnauthorized "unauthorized", db))
    /\ (forall claims,
          GetClaimsFromContext r = Some claims -> UserID claims <> id ->
          handler.update lib env r db
          = (handler.writeError StatusForbidden "you can only update your own profile", db)
          /\ handler.delete r db
             = (handler.writeError StatusForbidden "you can only delete your own account", db))
    /\ (forall claims,
          GetClaimsFromContext r = Some claims -> UserID claims = id ->
          handler.update lib env r db
          = match RequestBody r with
            | InvalidJSON => (handler.writeError StatusBadRequest "invalid JSON format", db)
            | JSONObject email password =>
                match user.Update lib (handler.salt env) id email password db with
                | (Err err, db') => (handler.handleServiceError err, db')
                | (Ok u, db') => (handler.writeJSON StatusOK (UserJSON (ID u) (user.Email u)), db')
                end
            end
          /\ handler.delete r db
             = match user.Delete id db with
               | (Err err, db') => (handler.handleServiceError err, db')
               | (Ok _, db') => ({| Status := StatusNoContent; Written := NoContent |}, db')
               end
          /\ Status (fst (handler.update lib env r db)) <> StatusForbidden
          /\ Status (fst (handler.delete r db)) <> StatusForbidden)
    /\ StatusForbidden <> StatusUnauthorized.
Proof.
  intros DB repo lib env r db id Hid.
  unfold handler.update, handler.delete. rewrite Hid.
  split; [|split; [|split]].
  - intros ->. split; reflexivity.
  - intros claims -> Hne. apply N.eqb_neq in Hne. rewrite Hne. split; reflexivity.
  - intros claims -> He. apply N.eqb_eq in He. rewrite He. cbn [negb].
    split; [reflexivity|]. split; [reflexivity|]. split.
    + destruct (RequestBody r) as [|email password]; [cbn; discriminate|].
      destruct (user.Update lib (handler.salt env) id email password db) as [[u|err] db'];
        [cbn; discriminate|apply handleServiceError_not_forbidden].
    + destruct (user.Delete id db) as [[u|err] db'];
        [cbn; discriminate|apply handleServiceError_not_forbidden].
  - discriminate.
Qed.

(** Subject 5 on the account of 6: forbidden, and nothing is deleted. *)
Lemma mutation_requires_own_id_witness :
  let r := WithClaims (sample.request None "6" (JSONObject "eve@example.com" ""))
             sample.alice_claims in
  handler.update sample.hasher sample.env r sample.db
  = (handler.writeError StatusForbidden "you can only update your own profile", sample.db)
  /\ handler.delete r sample.db
     = (handler.writeError StatusForbidden "you can only delete your own account", sample.db).
Proof.
  cbv zeta.
  destruct (mutation_requires_own_id mysql.DB mysql.UserRepository sample.hasher sample.env
              (WithClaims (sample.request None "6" (JSONObject "eve@example.com" ""))
                 sample.alice_claims)
              sample.db 6%N eq_refl) as (_ & Hforbidden & _).
  apply (Hforbidden sample.alice_claims); [reflexivity | cbn; discriminate].
Defined.

(** Subject 5 on the account of 5: the update and the deletion go through. *)
Example own_account_update :
  fst (handler.update sample.hasher sample.env
         (WithClaims (sample.request None "5" (JSONObject "alice@example.org" ""))
            sample.alice_claims)
         sample.db)
  = handler.writeJSON StatusOK (UserJSON 5 "alice@example.org").
Proof. vm_compute. reflexivity. Qed.

Example own_account_delete :
  let r := WithClaims (sample.request None "5" InvalidJSON) sample.alice_claims in
  fst (handler.delete r sample.db) = {| Status := StatusNoContent; Written := NoContent |}
  /\ mysql.FindByID 5 (snd (handler.delete r sample.db)) = Ok None.
Proof. vm_compute. split; reflexivity. Qed.

Lemma find_where_id rows (u : User) :
  NoDup (map ID rows) -> In u rows -> DeletedAt u = None ->
  find (mysql.where_id (ID u)) rows = Some u.
Proof.
  induction rows as [|x rows IH]; intros Hnd Hin Hlive; [contradiction|].
  cbn [find]. inversion Hnd as [|? ? Hx Hrest]; subst.
  destruct Hin as [->|Hin].
  - unfold mysql.where_id, mysql.live. rewrite N.eqb_refl, Hlive. reflexivity.
  - assert (Hne : ID x <> ID u).
    { intros E. apply Hx. rewrite E. apply in_map. exact Hin. }
    unfold mysql.where_id at 1. apply N.eqb_neq in Hne. rewrite Hne. cbn [andb].
    apply IH; assumption.
Qed.

(** C10: the route GET /users/{id} runs [get] behind the gate and compares
    no ids.  A request whose token the codec rejects or that has no bearer
    credential is answered 401; a request with valid claims of any subject
    is answered 200 with the id and email of the live row of the path id,
    whoever the subject is, and the store is left as it was. *)
Theorem get_user_checks_no_owner :
  forall jwtlib lib (h : handler.UserHandler) (m : Middleware) (env : handler.Env)
         (r : Request) (db : mysql.DB) (b : N) (u : User),
    let route := handler.RegisterRoutes jwtlib lib h m env handler.GET_users_id in
    ParseUint (PathValue_id r) = Ok b ->
    NoDup (map ID (mysql.users db)) ->
    In u (mysql.users db) -> ID u = b -> DeletedAt u = None ->
    (forall msg, extractBearerToken r = Err msg ->
                 Status (fst (route r db)) = StatusUnauthorized /\ snd (route r db) = db)
    /\ (forall token err,
          extractBearerToken r = Ok token ->
          ValidateToken jwtlib (jwtManager m) (handler.now env) token = Err err ->
          Status (fst (route r db)) = StatusUnauthorized /\ snd (route r db) = db)
    /\ (forall token claims,
          extractBearerToken r = Ok token ->
          ValidateToken jwtlib (jwtManager m) (handler.now env) token = Ok claims ->
          route r db = (handler.writeJSON StatusOK (UserJSON b (user.Email u)), db)).
Proof.
  intros jwtlib lib h m env r db b u route Hid Hnd Hin Hb Hlive.
  subst route. cbn [handler.RegisterRoutes]. unfold auth.AuthenticateFunc, auth.Authenticate.
  split; [|split].
  - intros msg ->. split; reflexivity.
  - intros token err -> ->.
    destruct (auth.errors_Is err ErrExpiredToken); split; reflexivity.
  - intros token claims -> ->.
    unfold handler.get. cbn [PathValue_id WithClaims]. rewrite Hid.
    unfold GetByID, bind, wrap, query. cbn [repo_FindByID mysql.UserRepository].
    unfold mysql.FindByID. rewrite <- Hb. rewrite (find_where_id _ _ Hnd Hin Hlive).
    reflexivity.
Qed.

(** Alice, subject 5, reads the account of Bob, 6. *)
Lemma get_user_checks_no_owner_witness :
  handler.RegisterRoutes sample.backend sample.hasher
    {| handler.jwtManager := sample.manager |} (NewMiddleware sample.manager) sample.env
    handler.GET_users_id
    (sample.request (Some ("Bearer " ++ sample.alice_token)) "6" InvalidJSON) sample.db
  = (handler.writeJSON StatusOK (UserJSON 6 "bob@example.com"), sample.db).
Proof.
  assert (Hkey : NoDup (map ID (mysql.users sample.db))).
  { repeat constructor; cbn; intuition discriminate. }
  destruct (get_user_checks_no_owner sample.backend sample.hasher
              {| handler.jwtManager := sample.manager |} (NewMiddleware sample.manager)
              sample.env
              (sample.request (Some ("Bearer " ++ sample.alice_token)) "6" InvalidJSON)
              sample.db 6%N sample.bob eq_refl Hkey (or_intror (or_introl eq_refl))
              eq_refl eq_refl) as (_ & _ & Hserved).
  apply (Hserved sample.alice_token sample.alice_claims); reflexivity.
Defined.

(** ** Logging in *)

(** C9: a login with an address nobody has and a login with a known address
    and a password its digest does not match fail alike: both services
    return [ErrInvalidCredentials] and leave the store as it was, and the
    login handler answers both with the same 401. *)
Theorem login_failures_alike :
  forall DB (repo : Repository DB) jwtlib lib (h : handler.UserHandler) (env : handler.Env)
         (db : DB) (unknown known password password' : string) (u : User)
         (mismatch : bcrypt.Error),
    bcrypt.CompareHashAndPassword lib (PasswordHash u) password = Some mismatch ->
    (repo_FindByEmail (ToLower unknown) db = Ok None ->
     repo_FindByEmail (ToLower known) db = Ok (Some u) ->
     user.Authenticate lib unknown password' db = (Err ErrInvalidCredentials, db)
     /\ user.Authenticate lib known password db = (Err ErrInvalidCredentials, db)
     /\ (forall r, RequestBody r = JSONObject unknown password' ->
           handler.login jwtlib lib h env r db
           = (handler.writeError StatusUnauthorized "invalid email or password", db))
     /\ (forall r, RequestBody r = JSONObject known password ->
           handler.login jwtlib lib h env r db
           = (handler.writeError StatusUnauthorized "invalid email or password", db)))
    /\ (repo_FindByEmail unknown db = Ok None ->
        repo_FindByEmail known db = Ok (Some u) ->
        user_plain.Login lib unknown password' db = (Err ErrInvalidCredentials, db)
        /\ user_plain.Login lib known password db = (Err ErrInvalidCredentials, db)).
Proof.
  intros DB repo jwtlib lib h env db unknown known password password' u mismatch Hcmp.
  split.
  - intros Hnone Hsome.
    assert (H1 : user.Authenticate lib unknown password' db = (Err ErrInvalidCredentials, db)).
    { unfold user.Authenticate, bind, wrap, query, fail. rewrite Hnone. reflexivity. }
    assert (H2 : user.Authenticate lib known password db = (Err ErrInvalidCredentials, db)).
    { unfold user.Authenticate, bind, wrap, query, fail. rewrite Hsome, Hcmp. reflexivity. }
    repeat split; try assumption.
    + intros r Hr. unfold handler.login. rewrite Hr, H1. reflexivity.
    + intros r Hr. unfold handler.login. rewrite Hr, H2. reflexivity.
  - intros Hnone Hsome. unfold user_plain.Login.
    rewrite Hnone, Hsome, Hcmp. split; reflexivity.
Qed.

(** Nobody's address, and Alice's with a wrong password. *)
Lemma login_failures_alike_witness :
  user.Authenticate sample.hasher "nobody@example.com" "password123" sample.db
  = (Err ErrInvalidCredentials, sample.db)
  /\ user.Authenticate sample.hasher "alice@example.com" "wrongpassword" sample.db
     = (Err ErrInvalidCredentials, sample.db).
Proof.
  destruct (login_failures_alike mysql.DB mysql.UserRepository sample.backend sample.hasher
              {| handler.jwtManager := sample.manager |} sample.env sample.db
              "nobody@example.com" "alice@example.com" "wrongpassword" "password123"
              sample.alice bcrypt.ErrMismatchedHashAndPassword eq_refl)
    as [Hrich _].
  destruct (Hrich eq_refl eq_refl) as (H1 & H2 & _).
  split; assumption.
Defined.

Example login_succeeds :
  user.Authenticate sample.hasher "Alice@Example.com" "password123" sample.db
  = (Ok sample.alice, sample.db).
Proof. vm_compute. reflexivity. Qed.

(** ** Passwords *)

Lemma validatePassword_weak password :
  validatePassword password <> None <-> spec.weak_input password.
Proof.
  unfold validatePassword, spec.weak_input, MinPasswordLength, MaxPasswordLength.
  destruct (String.eqb_spec password "") as [E|E]; [split; [auto|discriminate]|].
  destruct (Nat.ltb_spec (len password) 8); [split; [auto|discriminate]|].
  destruct (Nat.ltb_spec 72 (len password)); [split; [auto|discriminate]|].
  split; [congruence|]. intros [H1|[H1|H1]]; [contradiction|lia|lia].
Qed.

Lemma validatePassword_kind password e :
  validatePassword password = Some e -> spec.WeakInputError e.
Proof.
  unfold validatePassword, spec.WeakInputError.
  destruct (String.eqb password ""); [intros H; inversion H; auto|].
  destruct (len password <? MinPasswordLength)%nat; [intros H; inversion H; auto|].
  destruct (MaxPasswordLength <? len password)%nat; [intros H; inversion H; auto|].
  discriminate.
Qed.

(** The digest [hashPassword] makes of a password of at most 72 bytes. *)
Lemma hashPassword_digest lib salt password :
  (len password <= 72)%nat ->
  user.hashPassword lib salt password
  = Ok (bcrypt.Hash lib {| bcrypt.hash := bcrypt.bcrypt lib password bcryptCost salt;
                           bcrypt.salt := salt; bcrypt.cost := bcryptCost |}).
Proof.
  intros H. unfold user.hashPassword, bcrypt.GenerateFromPassword.
  destruct (Nat.ltb_spec 72 (len password)); [lia|]. reflexivity.
Qed.

(** Service steps that only look at the store. *)
Section ReadOnly.

Context {DB : Type}.

Lemma readonly_ret A (a : A) : readonly (DB := DB) (ret a).
Proof. intros db. reflexivity. Qed.

Lemma readonly_fail A e : readonly (DB := DB) (fail (A := A) e).
Proof. intros db. reflexivity. Qed.

Lemma readonly_query A (q : DB -> result Error A) : readonly (query q).
Proof. intros db. reflexivity. Qed.

Lemma readonly_check v : readonly (DB := DB) (check v).
Proof. destruct v; intros db; reflexivity. Qed.

Lemma readonly_wrap A ctx (m : user.M (DB := DB) A) :
  readonly m -> readonly (wrap ctx m).
Proof.
  intros Hm db. unfold wrap. specialize (Hm db).
  destruct (m db) as [[a|e] db']; exact Hm.
Qed.

Lemma readonly_bind A B (m : user.M (DB := DB) A) (k : A -> user.M B) :
  readonly m -> (forall a, readonly (k a)) -> readonly (bind m k).
Proof.
  intros Hm Hk db. unfold bind. specialize (Hm db).
  destruct (m db) as [[a|e] db']; cbn in Hm; subst; [apply Hk|reflexivity].
Qed.

End ReadOnly.

Create HintDb readonly.
#[local] Hint Resolve readonly_ret readonly_fail readonly_query readonly_check
  readonly_wrap readonly_bind : readonly.

Lemma update_email_readonly DB (repo : Repository DB) id email u :
  readonly (user.update_email id email u).
Proof.
  unfold user.update_email.
  destruct (negb (String.eqb email "") && negb (String.eqb email (Email u)));
    [|apply readonly_ret].
  apply readonly_bind; [apply readonly_check|intros _].
  apply readonly_bind; [apply readonly_wrap, readonly_query|intros [other|]].
  - destruct (negb (N.eqb (ID other) id)); auto with readonly.
  - apply readonly_ret.
Qed.

(** C7 (amended): [validatePassword] fails exactly for a password that is
    empty, shorter than 8 bytes or longer than 72 bytes, and then with one
    of the three errors of a weak input.  [Create] with such a password, and
    [Update] with such a password that is not empty, fail, leave the store
    as it was and do not depend on the hasher or its salt (no digest is
    made); with a valid address [Create] fails with the password's error.
    Every other password is hashed.  An empty password given to [Update]
    means "keep the password" and is no error. *)
Theorem weak_password_is_refused :
  forall DB (repo : Repository DB) lib (salt email password : string) (id : N) (db : DB),
    (validatePassword password <> None <-> spec.weak_input password)
    /\ (forall e, validatePassword password = Some e -> spec.WeakInputError e)
    /\ (forall e, validatePassword password = Some e ->
          user.Create lib salt email password db
          = (Err (match validateEmail email with Some e' => e' | None => e end), db))
    /\ (spec.weak_input password -> password <> "" ->
          (exists e, user.Update lib salt id email password db = (Err e, db))
          /\ (forall lib' salt',
                user.Update lib' salt' id email password db
                = user.Update lib salt id email password db))
    /\ (~ spec.weak_input password ->
          exists digest, user.hashPassword lib salt password = Ok digest)
    /\ (forall u, user.update_password lib salt "" u db = (Ok u, db)).
Proof.
  intros DB repo lib salt email password id db.
  split; [apply validatePassword_weak|].
  split; [apply validatePassword_kind|].
  split; [|split; [|split]].
  - intros e He. unfold user.Create, bind, check, fail, ret.
    destruct (validateEmail email); [reflexivity|]. rewrite He. reflexivity.
  - intros Hweak Hne.
    apply validatePassword_weak in Hweak.
    destruct (validatePassword password) as [e|] eqn:He; [clear Hweak|congruence].
    assert (Hform : forall lib0 salt0,
               user.Update lib0 salt0 id email password db
               = match wrap "finding user" (query (repo_FindByID id)) db with
                 | (Ok (Some u), _) =>
                     match user.update_email id email u db with
                     | (Ok _, _) => (Err e, db)
                     | (Err e', _) => (Err e', db)
                     end
                 | (Ok None, _) => (Err ErrNotFound, db)
                 | (Err e', _) => (Err e', db)
                 end).
    { intros lib0 salt0. unfold user.Update, bind, wrap, query.
      destruct (repo_FindByID id db) as [[u|]|e']; try reflexivity.
      assert (Hdb : forall r db', user.update_email id email u db = (r, db') -> db' = db).
      { intros r db' H. pose proof (update_email_readonly DB repo id email u db) as Hro.
        rewrite H in Hro. exact Hro. }
      destruct (user.update_email id email u db) as [[u'|e'] db'] eqn:Eu;
        rewrite (Hdb _ _ eq_refl); [|reflexivity].
      unfold user.update_password, bind, check, fail.
      apply String.eqb_neq in Hne. rewrite Hne. cbn [negb]. rewrite He. reflexivity. }
    split.
    + rewrite Hform.
      destruct (wrap "finding user" (query (repo_FindByID id)) db) as [[[u|]|e'] db']; eauto.
      destruct (user.update_email id email u db) as [[u'|e'] db'']; eauto.
    + intros lib' salt'. rewrite (Hform lib' salt'), (Hform lib salt). reflexivity.
  - intros Hstrong. eexists. apply hashPassword_digest.
    unfold spec.weak_input in Hstrong. lia.
  - reflexivity.
Qed.

(** Seven bytes are too few: nobody is registered. *)
Lemma weak_password_is_refused_witness :
  user.Create sample.hasher sample.salt0 "carol@example.com" "secret7" sample.db
  = (Err ErrPasswordTooShort, sample.db).
Proof.
  pose proof (weak_password_is_refused mysql.DB mysql.UserRepository sample.hasher
                sample.salt0 "carol@example.com" "secret7" 0%N sample.db)
    as (_ & _ & Hcreate & _).
  apply (Hcreate ErrPasswordTooShort). reflexivity.
Defined.

(** C7 (as stated, refuted): the empty password is a weak input, yet
    [Update] with it succeeds and changes the stored address; and a password
    of seven characters is accepted when it has eight bytes or more. *)
Lemma update_with_empty_password_goes_through :
  (spec.weak_input ""
   /\ exists u db' row,
       user.Update sample.hasher sample.salt0 5 "alice@example.org" "" sample.db = (Ok u, db')
       /\ user.Email u = "alice@example.org"
       /\ mysql.FindByEmail "alice@example.org" sample.db = Ok None
       /\ mysql.FindByEmail "alice@example.org" db' = Ok (Some row)
       /\ ID row = 5%N
       /\ db' <> sample.db)
  /\ (spec.characters sample.accented_password = 7%nat
      /\ len sample.accented_password = 14%nat
      /\ validatePassword sample.accented_password = None).
Proof.
  split; [|repeat split; reflexivity].
  split; [left; reflexivity|].
  eexists. eexists. eexists. split; [vm_compute; reflexivity|].
  split; [reflexivity|]. split; [reflexivity|].
  split; [vm_compute; reflexivity|]. split; [reflexivity|].
  intros H. apply (f_equal (mysql.FindByEmail "alice@example.org")) in H.
  vm_compute in H. discriminate.
Qed.





(** The digests of the two services: cost 12 in the one of repository.go,
    bcrypt's default cost in the one of service.go. *)
Lemma plain_Create_digest DB (repo : Repository DB) lib salt (u : User) db :
  (len (PasswordHash u) <= 72)%nat ->
  repo_FindByEmail (user.Email u) db = Ok None ->
  user_plain.Create lib salt u db
  = repo_Create
      (with_PasswordHash u
         (bcrypt.Hash lib {| bcrypt.hash := bcrypt.bcrypt lib (PasswordHash u) bcrypt.DefaultCost salt;
                             bcrypt.salt := salt; bcrypt.cost := bcrypt.DefaultCost |}))
      db.
Proof.
  intros Hlen Hfree. unfold user_plain.Create, bcrypt.GenerateFromPassword. rewrite Hfree.
  destruct (Nat.ltb_spec 72 (len (PasswordHash u))); [lia|]. reflexivity.
Qed.

(** C8 (the code at the failing input): the service of service.go registers
    a user with a digest of cost 10, and rewrites a password at cost 10,
    where the service of repository.go uses cost 12. *)
Theorem plain_service_hashes_at_default_cost :
  let carol := {| ID := 0; user.Email := "carol@example.com"; PasswordHash := "password123";
                  CreatedAt := 0%Z; UpdatedAt := 0%Z; DeletedAt := None |} in
  (exists u db',
      user_plain.Create sample.hasher sample.salt0 carol sample.db = (Ok u, db')
      /\ bcrypt.Cost sample.hasher (PasswordHash u) = Ok 10%nat
      /\ exists row, mysql.FindByEmail "carol@example.com" db' = Ok (Some row)
                     /\ bcrypt.Cost sample.hasher (PasswordHash row) = Ok 10%nat)
  /\ (exists db' row,
         user_plain.Update sample.hasher sample.salt0
           (with_PasswordHash sample.alice "password123") sample.db = (Ok tt, db')
         /\ mysql.FindByID 5 db' = Ok (Some row)
         /\ bcrypt.Cost sample.hasher (PasswordHash row) = Ok 10%nat)
  /\ (exists digest,
         user.hashPassword sample.hasher sample.salt0 "password123" = Ok digest
         /\ bcrypt.Cost sample.hasher digest = Ok 12%nat)
  /\ (bcrypt.DefaultCost < bcryptCost)%nat.
Proof.
  cbv zeta. split; [|split; [|split]].
  - eexists. eexists. split; [vm_compute; reflexivity|].
    split; [vm_compute; reflexivity|].
    eexists. split; vm_compute; reflexivity.
  - eexists. eexists. split; [vm_compute; reflexivity|].
    split; vm_compute; reflexivity.
  - eexists. split; vm_compute; reflexivity.
  - vm_compute. repeat constructor.
Qed.

(* ===================================================================== *)
(** * Further properties *)
(* ===================================================================== *)

Import vocabulary.

(** ** What the codec accepts *)

Lemma GetSigningMethod_Alg m : jwt.GetSigningMethod (jwt.Alg m) = Some m.
Proof. destruct m as [[]|[]|[]|[]| |]; reflexivity. Qed.

Lemma GetSigningMethod_Some a m : jwt.GetSigningMethod a = Some m -> a = jwt.Alg m.
Proof.
  unfold jwt.GetSigningMethod. intros H.
  apply find_some in H. destruct H as [_ H]. apply String.eqb_eq in H. auto.
Qed.

Lemma Validate_nil rc now : jwt.Validate rc now = [] <-> in_time rc now.
Proof.
  unfold jwt.Validate, jwt.verifyExpiresAt, jwt.verifyNotBefore, in_time, Before.
  destruct (jwt.ExpiresAt rc) as [exp|]; destruct (jwt.NotBefore rc) as [nbf|];
    repeat match goal with
           | |- context [(?a <? ?b)%Z] => destruct (Z.ltb_spec a b)
           end; cbn; split; intros Hyp;
    try discriminate; try reflexivity;
    try (split; intros x Hx; inversion Hx; subst; lia);
    try (destruct Hyp as [H1 H2]; try specialize (H1 _ eq_refl);
         try specialize (H2 _ eq_refl); lia).
Qed.

Lemma Validate_expired rc now :
  jwt.errors_Is (jwt.ErrTokenInvalidClaims :: jwt.Validate rc now) jwt.ErrTokenExpired = true
  <-> exists exp, jwt.ExpiresAt rc = Some exp /\ (exp <= now)%Z.
Proof.
  unfold jwt.Validate, jwt.verifyExpiresAt, jwt.verifyNotBefore, Before.
  destruct (jwt.ExpiresAt rc) as [exp|]; destruct (jwt.NotBefore rc) as [nbf|];
    repeat match goal with
           | |- context [(?a <? ?b)%Z] => destruct (Z.ltb_spec a b)
           end; cbn; split; intros Hyp;
    try discriminate; try reflexivity;
    try (destruct Hyp as (x & Hx & Hle); inversion Hx; subst; lia);
    try (eexists; split; [reflexivity|lia]).
Qed.

(** The parser's verdict on a string that decodes, by the method of its
    header, its signature and the validator. *)
Lemma ValidateToken_decoded lib m now tokenString s :
  jwt.DecodeSegments lib tokenString = Some s ->
  ValidateToken lib m now tokenString =
  match jwt.GetSigningMethod (jwt.alg s) with
  | Some (jwt.SigningMethodHMAC h) =>
      match jwt.signature s with
      | Some sig =>
          if String.eqb sig (jwt.hmac lib h (secret m) (jwt.signing_input s))
          then match jwt.Validate (RegisteredClaims (jwt.claims s)) now with
               | [] => Ok (jwt.claims s)
               | errs =>
                   Err (if jwt.errors_Is (jwt.ErrTokenInvalidClaims :: errs) jwt.ErrTokenExpired
                        then ErrExpiredToken else ErrInvalidToken)
               end
          else Err ErrInvalidToken
      | None => Err ErrInvalidToken
      end
  | _ => Err ErrInvalidToken
  end.
Proof.
  intros Hd. rewrite ValidateToken_of_parse. unfold jwt.ParseWithClaims. rewrite Hd.
  destruct (jwt.GetSigningMethod (jwt.alg s)) as [[h| | | | |]|]; cbn [keyFunc]; try reflexivity.
  destruct (jwt.signature s) as [sig|]; [|reflexivity].
  cbn [jwt.Verify]. destruct (String.eqb sig _); cbn [negb]; [|reflexivity].
  destruct (jwt.Validate _ _); reflexivity.
Qed.

Lemma ValidateToken_undecoded lib m now tokenString :
  jwt.DecodeSegments lib tokenString = None ->
  ValidateToken lib m now tokenString = Err ErrInvalidToken.
Proof.
  intros Hd. rewrite ValidateToken_of_parse. unfold jwt.ParseWithClaims. rewrite Hd.
  reflexivity.
Qed.

(** X1: [ValidateToken] returns claims exactly for the strings the library
    decodes to segments whose header names an HMAC method (HS256, HS384
    or HS512), whose signature is the MAC of the signed text under the
    manager's secret, and whose registered claims are in time: an expiry,
    if any, after [now] and a not-before, if any, not after [now].  The
    claims returned are the decoded ones.  The issuer is not compared. *)
Theorem ValidateToken_accepts_exactly :
  forall lib (m : JWTManager) (now : Time) (tokenString : string) (c : Claims),
    ValidateToken lib m now tokenString = Ok c
    <-> exists s h,
        jwt.DecodeSegments lib tokenString = Some s
        /\ jwt.alg s = jwt.Alg (jwt.SigningMethodHMAC h)
        /\ jwt.signature s = Some (jwt.hmac lib h (secret m) (jwt.signing_input s))
        /\ jwt.claims s = c
        /\ in_time (RegisteredClaims c) now.
Proof.
  intros lib m now tokenString c. split.
  - destruct (jwt.DecodeSegments lib tokenString) as [s|] eqn:Hd;
      [|rewrite (ValidateToken_undecoded lib m now _ Hd); discriminate].
    rewrite (ValidateToken_decoded lib m now _ _ Hd).
    destruct (jwt.GetSigningMethod (jwt.alg s)) as [[h| | | | |]|] eqn:Hm; try discriminate.
    destruct (jwt.signature s) as [sig|] eqn:Hs; [|discriminate].
    destruct (String.eqb_spec sig (jwt.hmac lib h (secret m) (jwt.signing_input s)))
      as [->|]; [|discriminate].
    destruct (jwt.Validate _ _) eqn:Hv; [|discriminate].
    intros H. inversion H; subst. exists s, h.
    repeat split; auto using GetSigningMethod_Some; apply Validate_nil; exact Hv.
  - intros (s & h & Hd & Ha & Hs & Hc & Ht).
    rewrite (ValidateToken_decoded lib m now _ _ Hd), Ha, GetSigningMethod_Alg, Hs.
    rewrite String.eqb_refl. subst c. apply Validate_nil in Ht. rewrite Ht. reflexivity.
Qed.

(** X2: [ValidateToken] fails with [ErrExpiredToken] exactly for the
    strings that decode, name an HMAC method, carry the right signature
    and an expiry that is not after [now]; every other failure is the
    generic one.  An expired token with a wrong signature is thus not
    reported as expired. *)
Theorem ValidateToken_expired_exactly :
  forall lib (m : JWTManager) (now : Time) (tokenString : string),
    ValidateToken lib m now tokenString = Err ErrExpiredToken
    <-> exists s h exp,
        jwt.DecodeSegments lib tokenString = Some s
        /\ jwt.alg s = jwt.Alg (jwt.SigningMethodHMAC h)
        /\ jwt.signature s = Some (jwt.hmac lib h (secret m) (jwt.signing_input s))
        /\ jwt.ExpiresAt (RegisteredClaims (jwt.claims s)) = Some exp
        /\ (exp <= now)%Z.
Proof.
  intros lib m now tokenString. split.
  - destruct (jwt.DecodeSegments lib tokenString) as [s|] eqn:Hd;
      [|rewrite (ValidateToken_undecoded lib m now _ Hd); discriminate].
    rewrite (ValidateToken_decoded lib m now _ _ Hd).
    destruct (jwt.GetSigningMethod (jwt.alg s)) as [[h| | | | |]|] eqn:Hm; try discriminate.
    destruct (jwt.signature s) as [sig|] eqn:Hs; [|discriminate].
    destruct (String.eqb_spec sig (jwt.hmac lib h (secret m) (jwt.signing_input s)))
      as [->|]; [|discriminate].
    destruct (jwt.Validate _ _) as [|e errs] eqn:Hv; [discriminate|].
    destruct (jwt.errors_Is _ _) eqn:He; [|discriminate]. intros _.
    rewrite <- Hv in He. apply Validate_expired in He. destruct He as (exp & He & Hle).
    exists s, h, exp. repeat split; auto using GetSigningMethod_Some.
  - intros (s & h & exp & Hd & Ha & Hs & He & Hle).
    rewrite (ValidateToken_decoded lib m now _ _ Hd), Ha, GetSigningMethod_Alg, Hs.
    rewrite String.eqb_refl.
    assert (Hx : jwt.errors_Is (jwt.ErrTokenInvalidClaims
                                  :: jwt.Validate (RegisteredClaims (jwt.claims s)) now)
                   jwt.ErrTokenExpired = true)
      by (apply Validate_expired; eauto).
    destruct (jwt.Validate _ _) as [|e errs]; [discriminate Hx|]. rewrite Hx. reflexivity.
Qed.

(** The verdict on a token the manager issued, when the library decodes it
    to the segments it was made of. *)
Lemma ValidateToken_issued lib m t0 t userID email :
  let c := issued_claims m t0 userID email in
  let token := jwt.SignedString lib jwt.SHA256 c (secret m) in
  jwt.DecodeSegments lib token = Some (jwt.signed_segments lib jwt.SHA256 c (secret m)) ->
  ((Truncate_Second t0 <= t < Truncate_Second (Add t0 (duration m)))%Z ->
   ValidateToken lib m t token = Ok c)
  /\ ((Truncate_Second (Add t0 (duration m)) <= t)%Z ->
      ValidateToken lib m t token = Err ErrExpiredToken).
Proof.
  intros c token Hd.
  rewrite (ValidateToken_decoded lib m t _ _ Hd).
  cbn [jwt.signed_segments jwt.alg jwt.signature jwt.signing_input jwt.claims].
  rewrite GetSigningMethod_Alg, String.eqb_refl.
  assert (Hval : jwt.Validate (RegisteredClaims c) t =
                 ((if (t <? Truncate_Second (Add t0 (duration m)))%Z
                   then [] else [jwt.ErrTokenExpired])
                  ++ (if negb (t <? Truncate_Second t0)%Z
                      then [] else [jwt.ErrTokenNotValidYet]))%list)
    by reflexivity.
  rewrite Hval. clear Hval.
  split.
  - intros [H1 H2]. apply Z.ltb_lt in H2. apply Z.ltb_ge in H1. rewrite H1, H2. reflexivity.
  - intros H. apply Z.ltb_ge in H. rewrite H.
    destruct (t <? Truncate_Second t0)%Z; reflexivity.
Qed.

(** X3: the life of an issued token in terms of the issuing instant
    [t0]: with a duration of a second or more it validates at every
    instant from [t0] to [t0 + duration] less one second; from
    [t0 + duration] on it is expired; and a manager with a duration of
    zero or less issues tokens that are expired from the start. *)
Theorem issued_token_lifetime :
  forall lib (m : JWTManager) (t0 t : Time) (userID : N) (email : string),
    let c := issued_claims m t0 userID email in
    let token := jwt.SignedString lib jwt.SHA256 c (secret m) in
    jwt.DecodeSegments lib token = Some (jwt.signed_segments lib jwt.SHA256 c (secret m)) ->
    GenerateToken lib m t0 userID email = Ok token
    /\ ((Second <= duration m)%Z -> (t0 <= t <= t0 + duration m - Second)%Z ->
        ValidateToken lib m t token = Ok c)
    /\ ((t0 + duration m <= t)%Z -> ValidateToken lib m t token = Err ErrExpiredToken)
    /\ ((duration m <= 0)%Z -> (t0 <= t)%Z -> ValidateToken lib m t token = Err ErrExpiredToken).
Proof.
  intros lib m t0 t userID email c token Hd.
  destruct (ValidateToken_issued lib m t0 t userID email Hd) as [Hok Hexp].
  pose proof (Truncate_Second_bounds t0) as B0.
  pose proof (Truncate_Second_bounds (Add t0 (duration m))) as B1.
  unfold Add in *.
  split; [reflexivity|]. split; [|split].
  - intros Hd1 Ht. apply Hok. lia.
  - intros Ht. apply Hexp. lia.
  - intros Hd0 Ht. apply Hexp. lia.
Qed.

Lemma issued_token_lifetime_witness :
  ValidateToken sample.backend sample.manager sample.t0 sample.alice_token
  = Ok sample.alice_claims.
Proof.
  pose proof (issued_token_lifetime sample.backend sample.manager sample.t0 sample.t0
                5 "alice@example.com" eq_refl) as (_ & Hlive & _).
  apply Hlive; [vm_compute; discriminate | vm_compute; split; discriminate].
Defined.

(** ** From login to an authenticated request *)

Lemma extractBearerToken_Bearer r token :
  Authorization r = Some ("Bearer " ++ token) -> free " " token ->
  extractBearerToken r = Ok token.
Proof.
  intros Hr Hfree. apply extractBearerToken_Ok. exists "Bearer".
  unfold Header_Get_Authorization. rewrite Hr. split; [|reflexivity].
  apply Split_two. split; [reflexivity|]. split; [|exact Hfree].
  unfold free. cbn. intuition discriminate.
Qed.

(** X4: the token that [login] hands out opens [GET /me].  When the
    service authenticates the credentials as [u], [login] answers 200
    with a token for [u]'s id and address; a later request carrying
    "Bearer " and that token, while the token is in time, passes the gate
    and is answered with what [GetByID] finds for [u]'s id in the store of
    that moment. *)
Theorem login_token_opens_me :
  forall DB (repo : Repository DB) jwtlib lib (h : handler.UserHandler) (mw : Middleware)
         (env env' : handler.Env) (r r' : Request) (db db1 db' : DB)
         (email password : string) (u : User),
    let m := handler.jwtManager h in
    let c := issued_claims m (handler.now env) (ID u) (user.Email u) in
    let token := jwt.SignedString jwtlib jwt.SHA256 c (secret m) in
    jwtManager mw = m ->
    jwt.DecodeSegments jwtlib token = Some (jwt.signed_segments jwtlib jwt.SHA256 c (secret m)) ->
    free " " token ->
    RequestBody r = JSONObject email password ->
    user.Authenticate lib email password db = (Ok u, db1) ->
    Authorization r' = Some ("Bearer " ++ token) ->
    (Truncate_Second (handler.now env) <= handler.now env'
     < Truncate_Second (Add (handler.now env) (duration m)))%Z ->
    handler.login jwtlib lib h env r db
    = (handler.writeJSON StatusOK (LoginJSON token (ID u) (user.Email u)), db1)
    /\ handler.RegisterRoutes jwtlib lib h mw env' handler.GET_me r' db'
       = match user.GetByID (ID u) db' with
         | (Err err, d) => (handler.handleServiceError err, d)
         | (Ok cu, d) => (handler.writeJSON StatusOK (UserJSON (ID cu) (user.Email cu)), d)
         end.
Proof.
  intros DB repo jwtlib lib h mw env env' r r' db db1 db' email password u m c token
         Hm Hd Hfree Hr Hauth Hr' Ht.
  split.
  - unfold handler.login. rewrite Hr, Hauth. reflexivity.
  - cbn [handler.RegisterRoutes]. unfold auth.AuthenticateFunc, auth.Authenticate.
    rewrite (extractBearerToken_Bearer r' token Hr' Hfree), Hm.
    destruct (ValidateToken_issued jwtlib m (handler.now env) (handler.now env')
                (ID u) (user.Email u) Hd) as [Hok _].
    fold c token in Hok. rewrite (Hok Ht). reflexivity.
Qed.

Lemma free_space_alice_token : free " " sample.alice_token.
Proof.
  unfold free. intros H. apply (in_split) in H. destruct H as (a & b & H).
  apply (f_equal (existsb (Ascii.eqb " "))) in H.
  rewrite existsb_app in H. cbn [existsb] in H. rewrite Ascii.eqb_refl in H.
  rewrite orb_true_r in H. vm_compute in H. discriminate.
Qed.

Lemma login_token_opens_me_witness :
  handler.RegisterRoutes sample.backend sample.hasher
    {| handler.jwtManager := sample.manager |} (NewMiddleware sample.manager)
    {| handler.now := (sample.t0 + Minute)%Z; handler.salt := sample.salt0 |}
    handler.GET_me
    (sample.request (Some ("Bearer " ++ sample.alice_token)) "" InvalidJSON) sample.db
  = (handler.writeJSON StatusOK (UserJSON 5 "alice@example.com"), sample.db).
Proof.
  pose proof (login_token_opens_me mysql.DB mysql.UserRepository sample.backend sample.hasher
                {| handler.jwtManager := sample.manager |} (NewMiddleware sample.manager)
                sample.env
                {| handler.now := (sample.t0 + Minute)%Z; handler.salt := sample.salt0 |}
                (sample.request None "" (JSONObject "alice@example.com" "password123"))
                (sample.request (Some ("Bearer " ++ sample.alice_token)) "" InvalidJSON)
                sample.db sample.db sample.db "alice@example.com" "password123" sample.alice
                eq_refl eq_refl free_space_alice_token eq_refl eq_refl eq_refl
                ltac:(vm_compute; split; [discriminate|reflexivity]))
    as [_ Hme].
  exact Hme.
Defined.

(** ** The answers of the handlers *)

Lemma errors_Is_Wrapf ctx err target :
  user.errors_Is (Wrapf ctx err) target = user.errors_Is err target.
Proof. destruct target; reflexivity. Qed.

(** X6: [handleServiceError] sees through added context: an error
    wrapped with [fmt.Errorf("...: %w", err)] gets the answer of [err].
    The status is one of 400, 401, 404, 409 and 500, and the errors of
    the driver and of bcrypt get 500 with the fixed text "internal server
    error", so their own text never reaches the client. *)
Theorem handleServiceError_sees_through_context :
  forall (err : user.Error) (ctx msg : string) (cause : bcrypt.Error),
    handler.handleServiceError (Wrapf ctx err) = handler.handleServiceError err
    /\ In (Status (handler.handleServiceError err))
         [StatusBadRequest; StatusUnauthorized; StatusNotFound; StatusConflict;
          StatusInternalServerError]
    /\ handler.handleServiceError (DriverError msg)
       = handler.writeError StatusInternalServerError "internal server error"
    /\ handler.handleServiceError (BcryptError cause)
       = handler.writeError StatusInternalServerError "internal server error".
Proof.
  intros err ctx msg cause. split; [|split; [|split; reflexivity]].
  - unfold handler.handleServiceError. rewrite !errors_Is_Wrapf. reflexivity.
  - unfold handler.handleServiceError.
    repeat match goal with
           | |- context [if ?b then _ else _] => destruct b
           end; try (cbn; tauto).
    destruct (errors_As_ValidationError err) as [[f m]|]; cbn; tauto.
Qed.

Lemma handleServiceError_not_unauthorized err :
  handler.handleServiceError err <> handler.writeError StatusUnauthorized "unauthorized".
Proof.
  unfold handler.handleServiceError.
  repeat match goal with
         | |- context [if ?b then _ else _] => destruct b
         end; try discriminate.
  destruct (errors_As_ValidationError err) as [[f m]|]; discriminate.
Qed.

(** X5: behind the gate the handlers always find the claims: none of the
    three protected routes ever gives the JSON answer 401 "unauthorized"
    that [me], [update] and [delete] keep for a request without claims. *)
Theorem claims_are_present_behind_the_gate :
  forall DB (repo : Repository DB) jwtlib lib (h : handler.UserHandler) (mw : Middleware)
         (env : handler.Env) (route : handler.Route) (r : Request) (db : DB),
    In route [handler.GET_me; handler.PUT_users_id; handler.DELETE_users_id] ->
    fst (handler.RegisterRoutes jwtlib lib h mw env route r db)
    <> handler.writeError StatusUnauthorized "unauthorized".
Proof.
  intros DB repo jwtlib lib h mw env route r db Hroute.
  assert (Hgate : forall next : Handler DB,
             (forall c, fst (next (WithClaims r c) db)
                        <> handler.writeError StatusUnauthorized "unauthorized") ->
             fst (auth.AuthenticateFunc jwtlib mw (handler.now env) next r db)
             <> handler.writeError StatusUnauthorized "unauthorized").
  { intros next Hnext. unfold auth.AuthenticateFunc, auth.Authenticate.
    destruct (extractBearerToken r) as [token|]; [|discriminate].
    destruct (ValidateToken jwtlib (jwtManager mw) (handler.now env) token) as [c|e];
      [apply Hnext|].
    destruct (auth.errors_Is e ErrExpiredToken); discriminate. }
  destruct Hroute as [<-|[<-|[<-|[]]]]; cbn [handler.RegisterRoutes]; apply Hgate; intros c.
  - unfold handler.me. cbn [GetClaimsFromContext WithClaims ContextClaims].
    destruct (user.GetByID (UserID c) db) as [[u|e] d]; cbn [fst];
      [discriminate|apply handleServiceError_not_unauthorized].
  - unfold handler.update. cbn [GetClaimsFromContext WithClaims ContextClaims PathValue_id RequestBody].
    destruct (ParseUint (PathValue_id r)) as [id|]; [|discriminate].
    destruct (negb (N.eqb (UserID c) id)); [discriminate|].
    destruct (RequestBody r) as [|email password]; [discriminate|].
    destruct (user.Update lib (handler.salt env) id email password db) as [[u|e] d]; cbn [fst];
      [discriminate|apply handleServiceError_not_unauthorized].
  - unfold handler.delete. cbn [GetClaimsFromContext WithClaims ContextClaims PathValue_id].
    destruct (ParseUint (PathValue_id r)) as [id|]; [|discriminate].
    destruct (negb (N.eqb (UserID c) id)); [discriminate|].
    destruct (user.Delete id db) as [[u|e] d]; cbn [fst];
      [discriminate|apply handleServiceError_not_unauthorized].
Qed.

Lemma claims_are_present_behind_the_gate_witness :
  fst (handler.RegisterRoutes sample.backend sample.hasher
         {| handler.jwtManager := sample.manager |} (NewMiddleware sample.manager) sample.env
         handler.GET_me (sample.request None "" InvalidJSON) sample.db)
  <> handler.writeError StatusUnauthorized "unauthorized".
Proof.
  apply (claims_are_present_behind_the_gate mysql.DB mysql.UserRepository).
  left. reflexivity.
Defined.

(** ** Addresses *)

Lemma cut_first_Some sep s a b :
  cut_first sep s = Some (a, b) <-> s = (a ++ sep :: b)%list /\ ~ In sep a.
Proof.
  revert a. induction s as [|c s IH]; intros a; cbn [cut_first].
  - split; [discriminate|]. intros [H _]. destruct a; discriminate.
  - destruct (Ascii.eqb_spec c sep) as [->|Hne].
    + split.
      * intros H. inversion H; subst. split; [reflexivity|tauto].
      * intros [H Hn]. destruct a as [|x a]; cbn in H; inversion H; subst; [reflexivity|].
        exfalso. apply Hn. left. reflexivity.
    + destruct (cut_first sep s) as [[a' b']|] eqn:E.
      * split.
        -- intros H. inversion H; subst. destruct (proj1 (IH a') eq_refl) as [-> Hn].
           split; [reflexivity|]. intros [Hc|Hc]; [congruence|tauto].
        -- intros [H Hn]. destruct a as [|x a]; cbn in H; inversion H; subst; [congruence|].
           assert (Hs : Some (a', b') = Some (a, b)).
           { apply IH. split; [reflexivity|]. intros Hc. apply Hn. right. exact Hc. }
           inversion Hs; subst. reflexivity.
      * split; [discriminate|].
        intros [H Hn]. destruct a as [|x a]; cbn in H; inversion H; subst; [congruence|].
        assert (Hs : None = Some (a, b)).
        { apply IH. split; [reflexivity|]. intros Hc. apply Hn. right. exact Hc. }
        discriminate.
Qed.

Lemma cut_last_Some sep s a b :
  cut_last sep s = Some (a, b) <-> s = (a ++ sep :: b)%list /\ ~ In sep b.
Proof.
  unfold cut_last. split.
  - destruct (cut_first sep (rev s)) as [[x y]|] eqn:E; [|discriminate].
    intros H. inversion H; subst. apply cut_first_Some in E. destruct E as [E Hn].
    split; [|rewrite <- in_rev; exact Hn].
    apply (f_equal (@rev ascii)) in E. rewrite rev_involutive in E. rewrite E.
    rewrite rev_app_distr. cbn. rewrite <- app_assoc. reflexivity.
  - intros [-> Hn].
    assert (E : cut_first sep (rev (a ++ sep :: b)) = Some (rev b, rev a)).
    { apply cut_first_Some. split; [|rewrite <- in_rev; exact Hn].
      rewrite rev_app_distr. cbn. rewrite <- app_assoc. reflexivity. }
    rewrite E, !rev_involutive. reflexivity.
Qed.

Lemma nonempty_true s : nonempty s = true <-> s <> [].
Proof. destruct s; cbn; split; congruence. Qed.

Lemma forallb_Forall {A} (p : A -> bool) l :
  forallb p l = true <-> Forall (fun x => p x = true) l.
Proof. rewrite forallb_forall, Forall_forall. reflexivity. Qed.

Lemma emailRegex_MatchString_shape s :
  emailRegex_MatchString s = true <-> email_shape s.
Proof.
  unfold emailRegex_MatchString, email_shape. split.
  - destruct (cut_first "@" (list_ascii_of_string s)) as [[local rest]|] eqn:E1; [|discriminate].
    rewrite !andb_true_iff. intros [[Hl1 Hl2] H].
    destruct (cut_last "." rest) as [[domain tld]|] eqn:E2; [|discriminate].
    rewrite !andb_true_iff in H. destruct H as [[[Hd1 Hd2] Ht1] Ht2].
    apply cut_first_Some in E1. destruct E1 as [E1 _].
    apply cut_last_Some in E2. destruct E2 as [E2 _].
    exists local, domain, tld. subst rest.
    rewrite nonempty_true in Hl1, Hd1. rewrite forallb_Forall in Hl2, Hd2, Ht2.
    apply Nat.leb_le in Ht1. auto 10.
  - intros (local & domain & tld & E & Hl1 & Hl2 & Hd1 & Hd2 & Ht1 & Ht2).
    assert (E1 : cut_first "@" (list_ascii_of_string s) = Some (local, (domain ++ "."%char :: tld)%list)).
    { apply cut_first_Some. split; [exact E|].
      intros Hin. rewrite Forall_forall in Hl2. specialize (Hl2 _ Hin). discriminate. }
    assert (E2 : cut_last "." (domain ++ "."%char :: tld)%list = Some (domain, tld)).
    { apply cut_last_Some. split; [reflexivity|].
      intros Hin. rewrite Forall_forall in Ht2. specialize (Ht2 _ Hin). discriminate. }
    rewrite E1, E2.
    apply nonempty_true in Hl1, Hd1. apply forallb_Forall in Hl2, Hd2, Ht2.
    apply Nat.leb_le in Ht1. rewrite Hl1, Hl2, Hd1, Hd2, Ht1, Ht2. reflexivity.
Qed.

(** X7: [validateEmail] accepts exactly the strings of the form
    local "@" domain "." label, where the local part is one or more of
    letters, digits and [._%+-], the domain one or more of letters, digits
    and [.-], and the label two or more letters.  The empty string is
    refused with the validation error "email is required", every other
    string with [ErrInvalidEmail]. *)
Theorem validateEmail_accepts_exactly :
  forall email : string,
    (validateEmail email = None <-> email_shape email)
    /\ (email = "" -> validateEmail email = Some (ValidationError "email" "email is required"))
    /\ (email <> "" -> ~ email_shape email -> validateEmail email = Some ErrInvalidEmail).
Proof.
  intros email. unfold validateEmail.
  destruct (String.eqb_spec email "") as [->|Hne].
  - split; [|split; [reflexivity|congruence]].
    split; [discriminate|]. intros (l & d & t & E & _). destruct l; discriminate.
  - destruct (emailRegex_MatchString email) eqn:E; cbn [negb].
    + apply emailRegex_MatchString_shape in E. split; [tauto|]. split; [congruence|tauto].
    + assert (Hn : ~ email_shape email).
      { intros H. apply emailRegex_MatchString_shape in H. congruence. }
      split; [split; [discriminate|tauto]|]. split; [congruence|reflexivity].
Qed.

Lemma ToLower_bytes s :
  list_ascii_of_string (ToLower s) = map lower_byte (list_ascii_of_string s).
Proof. induction s as [|c s IH]; cbn; [reflexivity|]. rewrite IH. reflexivity. Qed.

Ltac by_bytes c :=
  destruct c as [[] [] [] [] [] [] [] []]; vm_compute; intros; congruence.

Lemma lower_byte_idem c : lower_byte (lower_byte c) = lower_byte c.
Proof. by_bytes c. Qed.

Lemma lower_byte_local c : local_char c = true -> local_char (lower_byte c) = true.
Proof. by_bytes c. Qed.

Lemma lower_byte_domain c : domain_char c = true -> domain_char (lower_byte c) = true.
Proof. by_bytes c. Qed.

Lemma lower_byte_letter c : is_letter c = true -> is_letter (lower_byte c) = true.
Proof. by_bytes c. Qed.

Lemma ToLower_idem s : ToLower (ToLower s) = ToLower s.
Proof.
  induction s as [|c s IH]; cbn; [reflexivity|]. rewrite IH, lower_byte_idem. reflexivity.
Qed.

Lemma Forall_lower (p : ascii -> bool) l :
  (forall c, p c = true -> p (lower_byte c) = true) ->
  Forall (fun c => p c = true) l -> Forall (fun c => p c = true) (map lower_byte l).
Proof.
  intros Hp H. induction H; cbn; constructor; auto.
Qed.

Lemma email_shape_ToLower s : email_shape s -> email_shape (ToLower s).
Proof.
  intros (local & domain & tld & E & Hl1 & Hl2 & Hd1 & Hd2 & Ht1 & Ht2).
  exists (map lower_byte local), (map lower_byte domain), (map lower_byte tld).
  rewrite ToLower_bytes, E, map_app. cbn [map]. rewrite map_app. cbn [map].
  split; [reflexivity|].
  split; [destruct local; [congruence|discriminate]|].
  split; [apply Forall_lower; [exact lower_byte_local|exact Hl2]|].
  split; [destruct domain; [congruence|discriminate]|].
  split; [apply Forall_lower; [exact lower_byte_domain|exact Hd2]|].
  split; [rewrite length_map; exact Ht1|].
  apply Forall_lower; [exact lower_byte_letter|exact Ht2].
Qed.

(** X8: lowering keeps an address valid: what [validateEmail] accepts it
    also accepts after [strings.ToLower], which changes no length and
    changes nothing when applied again.  So the address [Create] and
    [Update] store has the checked form. *)
Theorem lowered_address_stays_valid :
  forall email : string,
    validateEmail email = None ->
    validateEmail (ToLower email) = None
    /\ ToLower (ToLower email) = ToLower email
    /\ len (ToLower email) = len email.
Proof.
  intros email Hv.
  assert (Hs : email_shape email).
  { unfold validateEmail in Hv. destruct (String.eqb email ""); [discriminate|].
    destruct (emailRegex_MatchString email) eqn:E; [|discriminate].
    apply emailRegex_MatchString_shape. exact E. }
  split; [|split; [apply ToLower_idem|]].
  - apply email_shape_ToLower, emailRegex_MatchString_shape in Hs.
    unfold validateEmail. rewrite Hs.
    destruct (String.eqb_spec (ToLower email) "") as [E|_]; [|reflexivity].
    destruct email; [discriminate Hv|discriminate E].
  - unfold len. clear. induction email as [|c s IH]; cbn; congruence.
Qed.

Lemma lowered_address_stays_valid_witness :
  validateEmail (ToLower "Test.User@Example.COM") = None.
Proof.
  apply (lowered_address_stays_valid "Test.User@Example.COM"). reflexivity.
Defined.

(** ** The validating service on any repository *)

Lemma validatePassword_None_len password :
  validatePassword password = None -> (8 <= len password <= 72)%nat.
Proof.
  unfold validatePassword, MinPasswordLength, MaxPasswordLength.
  destruct (String.eqb password ""); [discriminate|].
  destruct (Nat.ltb_spec (len password) 8); [discriminate|].
  destruct (Nat.ltb_spec 72 (len password)); [discriminate|]. lia.
Qed.

Lemma hashing_valid DB lib salt password (db : DB) :
  validatePassword password = None ->
  user.hashing lib salt password db = (Ok (digest12 lib salt password), db).
Proof.
  intros Hv. apply validatePassword_None_len in Hv.
  unfold user.hashing. rewrite hashPassword_digest by lia. reflexivity.
Qed.

(** X9: what a successful [Create] has done, on any repository: the
    address and the password passed validation, the lookup of the address
    found no live user, and the user handed to the repository has the
    lowered address and the digest of the password at cost 12; the
    result is what the repository made of it. *)
Theorem Create_stores_lowered_address_and_digest :
  forall DB (repo : Repository DB) lib (salt email password : string) (db db' : DB) (u : User),
    user.Create lib salt email password db = (Ok u, db') ->
    validateEmail email = None
    /\ validatePassword password = None
    /\ repo_FindByEmail email db = Ok None
    /\ repo_Create {| ID := 0; Email := ToLower email;
                      PasswordHash := digest12 lib salt password;
                      CreatedAt := 0%Z; UpdatedAt := 0%Z; DeletedAt := None |} db
       = (Ok u, db').
Proof.
  intros DB repo lib salt email password db db' u.
  unfold user.Create, bind, check, wrap, query, fail, ret.
  destruct (validateEmail email); [discriminate|].
  destruct (validatePassword password) eqn:Hp; [discriminate|].
  destruct (repo_FindByEmail email db) as [[existing|]|e]; try discriminate.
  rewrite (hashing_valid DB lib salt password db Hp).
  destruct (repo_Create _ db) as [[u'|e] d] eqn:Hc; [|discriminate].
  intros H. inversion H; subst. auto.
Qed.

Lemma Create_stores_lowered_address_and_digest_witness :
  repo_FindByEmail "Carol@Example.com" sample.db = Ok None.
Proof.
  apply (Create_stores_lowered_address_and_digest mysql.DB mysql.UserRepository sample.hasher
           sample.salt0 "Carol@Example.com" "password123" sample.db
           (snd (user.Create sample.hasher sample.salt0 "Carol@Example.com" "password123"
                   sample.db))
           {| ID := 7; Email := "carol@example.com";
              PasswordHash := digest12 sample.hasher sample.salt0 "password123";
              CreatedAt := 0%Z; UpdatedAt := 0%Z; DeletedAt := None |}).
  vm_compute. reflexivity.
Defined.

(** X10: [Create] and [Update] never fail with "hashing password: ...":
    [validatePassword] has bounded the password by 72 bytes before bcrypt
    sees it, and cost 12 is within bcrypt's range. *)
Theorem validation_keeps_bcrypt_within_its_limits :
  forall DB (repo : Repository DB) lib (salt email password : string) (id : N) (db : DB)
         (cause : user.Error),
    fst (user.Create lib salt email password db) <> Err (Wrapf "hashing password" cause)
    /\ fst (user.Update lib salt id email password db) <> Err (Wrapf "hashing password" cause).
Proof.
  intros DB repo lib salt email password id db cause. split.
  - unfold user.Create, bind, check, wrap, query, fail, ret, validateEmail.
    destruct (String.eqb email ""); [discriminate|].
    destruct (negb (emailRegex_MatchString email)); [discriminate|].
    destruct (validatePassword password) as [e|] eqn:Hp.
    + apply validatePassword_kind in Hp. destruct Hp as [->|[->| ->]]; discriminate.
    + destruct (repo_FindByEmail email db) as [[existing|]|e]; try discriminate.
      rewrite (hashing_valid DB lib salt password db Hp).
      destruct (repo_Create _ db) as [[u'|e] d]; discriminate.
  - unfold user.Update, bind, wrap, query, fail, ret.
    destruct (repo_FindByID id db) as [[u|]|e]; try discriminate.
    assert (He : forall r d, user.update_email id email u db = (r, d) ->
                             r <> Err (Wrapf "hashing password" cause)).
    { unfold user.update_email, bind, check, wrap, query, fail, ret, validateEmail.
      intros r d.
      destruct (negb (String.eqb email "") && negb (String.eqb email (Email u)));
        [|intros H; inversion H; discriminate].
      destruct (String.eqb email ""); [intros H; inversion H; discriminate|].
      destruct (negb (emailRegex_MatchString email)); [intros H; inversion H; discriminate|].
      destruct (repo_FindByEmail email db) as [[other|]|e];
        [|intros H; inversion H; discriminate|intros H; inversion H; discriminate].
      destruct (negb (N.eqb (ID other) id)); intros H; inversion H; discriminate. }
    destruct (user.update_email id email u db) as [[u1|e] d] eqn:E1;
      [|apply (He _ _ eq_refl)].
    unfold user.update_password, bind, check, fail, ret.
    destruct (negb (String.eqb password "")).
    + destruct (validatePassword password) as [e|] eqn:Hp.
      * apply validatePassword_kind in Hp. destruct Hp as [->|[->| ->]]; discriminate.
      * rewrite (hashing_valid DB lib salt password d Hp).
        destruct (repo_Update _ d) as [[[]|e] d']; discriminate.
    + destruct (repo_Update u1 d) as [[[]|e] d']; discriminate.
Qed.

(** X11: registering with a well-formed address and password while a
    live user has the address fails with [ErrEmailExists], leaves the
    store as it is, and [register] answers 409 "email already exists". *)
Theorem duplicate_registration_is_a_conflict :
  forall DB (repo : Repository DB) lib (env : handler.Env) (r : Request) (db : DB)
         (email password : string) (existing : User),
    RequestBody r = JSONObject email password ->
    validateEmail email = None ->
    validatePassword password = None ->
    repo_FindByEmail email db = Ok (Some existing) ->
    user.Create lib (handler.salt env) email password db = (Err ErrEmailExists, db)
    /\ handler.register lib env r db
       = (handler.writeError StatusConflict "email already exists", db).
Proof.
  intros DB repo lib env r db email password existing Hr He Hp Hf.
  assert (Hc : user.Create lib (handler.salt env) email password db = (Err ErrEmailExists, db)).
  { unfold user.Create, bind, check, wrap, query, fail, ret. rewrite He, Hp, Hf. reflexivity. }
  split; [exact Hc|]. unfold handler.register. rewrite Hr, Hc. reflexivity.
Qed.

Lemma duplicate_registration_is_a_conflict_witness :
  handler.register sample.hasher sample.env
    (sample.request None "" (JSONObject "ALICE@example.com" "password123")) sample.db
  = (handler.writeError StatusConflict "email already exists", sample.db).
Proof.
  apply (duplicate_registration_is_a_conflict mysql.DB mysql.UserRepository sample.hasher
           sample.env (sample.request None "" (JSONObject "ALICE@example.com" "password123"))
           sample.db "ALICE@example.com" "password123" sample.alice);
    reflexivity.
Defined.

(** X12: [Update] changes only what is given.  For an existing user, an
    empty address and an empty password write the user back unchanged, as
    does the user's own address; a valid password alone replaces the
    digest only; a new valid address that no other live user has replaces
    the address only, lowered; a new address of another live user fails
    with [ErrEmailExists] and writes nothing. *)
Theorem Update_changes_only_what_is_given :
  forall DB (repo : Repository DB) lib (salt email password : string) (id : N) (db : DB)
         (u : User),
    repo_FindByID id db = Ok (Some u) ->
    user.Update lib salt id "" "" db = written u db
    /\ user.Update lib salt id (user.Email u) "" db = written u db
    /\ (validatePassword password = None ->
        user.Update lib salt id "" password db
        = written (with_PasswordHash u (digest12 lib salt password)) db)
    /\ (email <> "" -> email <> user.Email u -> validateEmail email = None ->
        (repo_FindByEmail email db = Ok None
         \/ exists self, repo_FindByEmail email db = Ok (Some self) /\ ID self = id) ->
        user.Update lib salt id email "" db = written (with_Email u (ToLower email)) db)
    /\ (email <> "" -> email <> user.Email u -> validateEmail email = None ->
        forall other, repo_FindByEmail email db = Ok (Some other) -> ID other <> id ->
        user.Update lib salt id email password db = (Err ErrEmailExists, db)).
Proof.
  intros DB repo lib salt email password id db u Hf.
  assert (Hsame : forall e, e = "" \/ e = user.Email u ->
                            user.update_email id e u db = (Ok u, db)).
  { intros e He. unfold user.update_email.
    destruct He as [-> | ->]; [reflexivity|].
    rewrite String.eqb_refl, andb_false_r. reflexivity. }
  assert (Hstep : forall e p u1,
             user.update_email id e u db = (Ok u1, db) ->
             user.update_password lib salt p u1 db = (Ok (if String.eqb p "" then u1 else with_PasswordHash u1 (digest12 lib salt p)), db) ->
             user.Update lib salt id e p db
             = written (if String.eqb p "" then u1 else with_PasswordHash u1 (digest12 lib salt p)) db).
  { intros e p u1 H1 H2. unfold user.Update, bind, wrap, query, ret, written.
    rewrite Hf, H1, H2. destruct (repo_Update _ db) as [[[]|err] d]; reflexivity. }
  assert (Hnopw : forall u1, user.update_password lib salt "" u1 db = (Ok u1, db))
    by reflexivity.
  repeat split.
  - apply (Hstep "" "" u); [apply Hsame; auto|apply Hnopw].
  - apply (Hstep (user.Email u) "" u); [apply Hsame; auto|apply Hnopw].
  - intros Hp.
    assert (Hne : String.eqb password "" = false).
    { destruct (String.eqb_spec password "") as [->|]; [discriminate Hp|reflexivity]. }
    pose proof (Hstep "" password u (Hsame "" (or_introl eq_refl))) as H.
    rewrite Hne in H. apply H.
    unfold user.update_password, bind, check, ret. rewrite Hne, Hp. cbn [negb].
    rewrite (hashing_valid DB lib salt password db Hp). reflexivity.
  - intros Hne1 Hne2 Hv Hlook.
    apply (Hstep email "" (with_Email u (ToLower email))); [|apply Hnopw].
    unfold user.update_email, bind, check, wrap, query, fail, ret.
    apply String.eqb_neq in Hne1, Hne2. rewrite Hne1, Hne2, Hv. cbn [negb andb].
    destruct Hlook as [H | (self & H & Hid)]; rewrite H; [reflexivity|].
    apply N.eqb_eq in Hid. rewrite Hid. reflexivity.
  - intros Hne1 Hne2 Hv other Hlook Hother.
    unfold user.Update, bind, wrap, query, ret, fail. rewrite Hf.
    unfold user.update_email, bind, check, wrap, query, fail, ret.
    apply String.eqb_neq in Hne1, Hne2. rewrite Hne1, Hne2, Hv. cbn [negb andb].
    rewrite Hlook. apply N.eqb_neq in Hother. rewrite Hother. reflexivity.
Qed.

Lemma Update_changes_only_what_is_given_witness :
  user.Update sample.hasher sample.salt0 5 "bob@example.com" "" sample.db
  = (Err ErrEmailExists, sample.db).
Proof.
  pose proof (Update_changes_only_what_is_given mysql.DB mysql.UserRepository sample.hasher
                sample.salt0 "bob@example.com" "" 5%N sample.db sample.alice eq_refl)
    as (_ & _ & _ & _ & Hconflict).
  apply (Hconflict ltac:(discriminate) ltac:(discriminate) eq_refl sample.bob eq_refl).
  discriminate.
Defined.

(** ** The services on the users table *)










Lemma where_id_ID id u : mysql.where_id id u = true -> ID u = id.
Proof. unfold mysql.where_id. rewrite andb_true_iff, N.eqb_eq. tauto. Qed.

Lemma where_id_live id u : mysql.where_id id u = true -> DeletedAt u = None.
Proof.
  unfold mysql.where_id, mysql.live. rewrite andb_true_iff.
  destruct (DeletedAt u); [intros [_ H]; discriminate|reflexivity].
Qed.








(** ** Who can change which row *)

Lemma only_row_changed_refl id db : only_row_changed id db db.
Proof. exists (fun r => r). rewrite map_id. auto. Qed.

Lemma Update_mysql_only_row u db :
  only_row_changed (ID u) db (snd (mysql.Update u db)).
Proof.
  unfold mysql.Update.
  destruct (existsb (mysql.where_id (ID u)) (mysql.users db)
            && mysql.email_taken (Email u) (ID u) (mysql.users db));
    [apply only_row_changed_refl|].
  cbn [snd]. eexists. split; [reflexivity|]. split; [|reflexivity].
  intros row Hne. destruct (mysql.where_id (ID u) row) eqn:E; [|reflexivity].
  apply where_id_ID in E. contradiction.
Qed.

Lemma Delete_mysql_only_row id db :
  only_row_changed id db (snd (mysql.Delete id db)).
Proof.
  unfold mysql.Delete. cbn [snd]. eexists. split; [reflexivity|]. split; [|reflexivity].
  intros row Hne. destruct (mysql.where_id id row) eqn:E; [|reflexivity].
  apply where_id_ID in E. contradiction.
Qed.

Lemma update_email_ID DB (repo : Repository DB) id email u db u1 d :
  user.update_email id email u db = (Ok u1, d) -> ID u1 = ID u /\ d = db.
Proof.
  intros H. split.
  - revert H. unfold user.update_email, bind, check, wrap, query, fail, ret.
    destruct (negb (String.eqb email "") && negb (String.eqb email (Email u)));
      [|intros H; inversion H; reflexivity].
    destruct (validateEmail email); [discriminate|].
    destruct (repo_FindByEmail email db) as [[other|]|e];
      [|intros H; inversion H; reflexivity|discriminate].
    destruct (negb (N.eqb (ID other) id)); intros H; inversion H; reflexivity.
  - pose proof (update_email_readonly DB repo id email u db) as Hro.
    rewrite H in Hro. exact Hro.
Qed.

Lemma update_password_ID DB lib salt password u (db : DB) u1 d :
  user.update_password lib salt password u db = (Ok u1, d) -> ID u1 = ID u /\ d = db.
Proof.
  unfold user.update_password, bind, check, fail, ret, user.hashing.
  destruct (negb (String.eqb password "")); [|intros H; inversion H; auto].
  destruct (validatePassword password); [discriminate|].
  destruct (user.hashPassword lib salt password); intros H; inversion H; auto.
Qed.

Lemma update_password_Err DB lib salt password u (db : DB) e d :
  user.update_password lib salt password u db = (Err e, d) -> d = db.
Proof.
  unfold user.update_password, bind, check, fail, ret, user.hashing.
  destruct (negb (String.eqb password "")); [|discriminate].
  destruct (validatePassword password); [intros H; inversion H; auto|].
  destruct (user.hashPassword lib salt password); intros H; inversion H; auto.
Qed.

Lemma Update_service_only_row lib salt id email password (db : mysql.DB) :
  only_row_changed id db (snd (user.Update lib salt id email password db)).
Proof.
  unfold user.Update, bind, wrap, query, fail, ret.
  cbn [repo_FindByID mysql.UserRepository]. unfold mysql.FindByID.
  destruct (find (mysql.where_id id) (mysql.users db)) as [u|] eqn:Hf;
    [|apply only_row_changed_refl].
  apply find_some in Hf. destruct Hf as [_ Hf]. apply where_id_ID in Hf.
  destruct (user.update_email id email u db) as [[u1|e] d] eqn:E1.
  - apply update_email_ID in E1. destruct E1 as [Hid1 ->].
    destruct (user.update_password lib salt password u1 db) as [[u2|e] d] eqn:E2.
    + apply update_password_ID in E2. destruct E2 as [Hid2 ->].
      cbn [repo_Update mysql.UserRepository].
      pose proof (Update_mysql_only_row u2 db) as H.
      replace (ID u2) with id in H by congruence.
      destruct (mysql.Update u2 db) as [[[]|e] d]; exact H.
    + apply update_password_Err in E2. subst d. apply only_row_changed_refl.
  - pose proof (update_email_readonly mysql.DB _ id email u db) as Hro.
    rewrite E1 in Hro. cbn in Hro. subst d. apply only_row_changed_refl.
Qed.

Lemma Delete_service_only_row id (db : mysql.DB) :
  only_row_changed id db (snd (user.Delete id db)).
Proof.
  unfold user.Delete, bind, wrap, query, fail.
  cbn [repo_FindByID mysql.UserRepository]. unfold mysql.FindByID.
  destruct (find (mysql.where_id id) (mysql.users db)); [|apply only_row_changed_refl].
  cbn [repo_Delete mysql.UserRepository].
  pose proof (Delete_mysql_only_row id db) as H.
  destruct (mysql.Delete id db) as [[[]|e] d]; exact H.
Qed.

(** X16: no request to [PUT /users/{id}] or [DELETE /users/{id}] changes
    the row of another user.  Without a bearer credential, or with a token
    that does not validate, the table is left as it is; with a valid token
    no row other than the one of the token's subject changes, and none is
    added or removed. *)
Theorem no_request_changes_another_account :
  forall jwtlib lib (h : handler.UserHandler) (mw : Middleware) (env : handler.Env)
         (route : handler.Route) (r : Request) (db : mysql.DB),
    In route [handler.PUT_users_id; handler.DELETE_users_id] ->
    let db' := snd (handler.RegisterRoutes jwtlib lib h mw env route r db) in
    (forall msg, extractBearerToken r = Err msg -> db' = db)
    /\ (forall token err,
          extractBearerToken r = Ok token ->
          ValidateToken jwtlib (jwtManager mw) (handler.now env) token = Err err ->
          db' = db)
    /\ (forall token c,
          extractBearerToken r = Ok token ->
          ValidateToken jwtlib (jwtManager mw) (handler.now env) token = Ok c ->
          only_row_changed (UserID c) db db').
Proof.
  intros jwtlib lib h mw env route r db Hroute db'.
  assert (Hgate : forall next : Handler mysql.DB,
             route = handler.PUT_users_id /\ next = handler.update lib env
             \/ route = handler.DELETE_users_id /\ next = handler.delete ->
             db' = snd (auth.Authenticate jwtlib mw (handler.now env) next r db)).
  { intros next [[-> ->]|[-> ->]]; reflexivity. }
  assert (Hnext : exists next : Handler mysql.DB,
             db' = snd (auth.Authenticate jwtlib mw (handler.now env) next r db)
             /\ forall c, only_row_changed (UserID c) db (snd (next (WithClaims r c) db))).
  { destruct Hroute as [<-|[<-|[]]].
    - exists (handler.update lib env). split; [apply Hgate; auto|].
      intros c. unfold handler.update.
      cbn [GetClaimsFromContext WithClaims ContextClaims PathValue_id RequestBody].
      destruct (ParseUint (PathValue_id r)) as [id|]; [|apply only_row_changed_refl].
      destruct (N.eqb_spec (UserID c) id) as [->|]; cbn [negb];
        [|apply only_row_changed_refl].
      destruct (RequestBody r) as [|email password]; [apply only_row_changed_refl|].
      pose proof (Update_service_only_row lib (handler.salt env) id email password db) as H.
      destruct (user.Update lib (handler.salt env) id email password db) as [[u|e] d];
        exact H.
    - exists handler.delete. split; [apply Hgate; auto|].
      intros c. unfold handler.delete.
      cbn [GetClaimsFromContext WithClaims ContextClaims PathValue_id].
      destruct (ParseUint (PathValue_id r)) as [id|]; [|apply only_row_changed_refl].
      destruct (N.eqb_spec (UserID c) id) as [->|]; cbn [negb];
        [|apply only_row_changed_refl].
      pose proof (Delete_service_only_row id db) as H.
      destruct (user.Delete id db) as [[u|e] d]; exact H. }
  destruct Hnext as (next & -> & Hserve). unfold auth.Authenticate.
  split; [|split].
  - intros msg ->. reflexivity.
  - intros token err -> ->. destruct (auth.errors_Is err ErrExpiredToken); reflexivity.
  - intros token c -> ->. apply Hserve.
Qed.

Lemma no_request_changes_another_account_witness :
  only_row_changed 5 sample.db
    (snd (handler.RegisterRoutes sample.backend sample.hasher
            {| handler.jwtManager := sample.manager |} (NewMiddleware sample.manager)
            sample.env handler.DELETE_users_id
            (sample.request (Some ("Bearer " ++ sample.alice_token)) "5" InvalidJSON)
            sample.db)).
Proof.
  pose proof (no_request_changes_another_account sample.backend sample.hasher
                {| handler.jwtManager := sample.manager |} (NewMiddleware sample.manager)
                sample.env handler.DELETE_users_id
                (sample.request (Some ("Bearer " ++ sample.alice_token)) "5" InvalidJSON)
                sample.db (or_intror (or_introl eq_refl))) as (_ & _ & H).
  apply (H sample.alice_token sample.alice_claims); reflexivity.
Defined.

(** ** The plain service *)

Lemma find_None_all {A} (p : A -> bool) l :
  find p l = None -> forall x, In x l -> p x = false.
Proof.
  intros H x Hx. destruct (p x) eqn:E; [|reflexivity].
  exfalso. revert H. induction l as [|y l IH]; [contradiction|]. cbn.
  destruct Hx as [->|Hx]; [rewrite E; discriminate|].
  destruct (p y); [discriminate|]. apply IH. exact Hx.
Qed.

Lemma map_unchanged {A} (f : A -> A) l : (forall x, In x l -> f x = x) -> map f l = l.
Proof.
  induction l as [|x l IH]; intros H; [reflexivity|]. cbn.
  rewrite (H x (or_introl eq_refl)), IH; [reflexivity|].
  intros y Hy. apply H. right. exact Hy.
Qed.

(** X17: the plain service (service.go) does not look before it writes.
    For an id with no live row its [Delete] and its [Update] report
    success and leave the table as it is, where the validating service
    fails with [ErrNotFound]. *)
Theorem plain_service_checks_no_existence :
  forall lib (salt email password : string) (db : mysql.DB) (id : N) (u : User),
    mysql.FindByID id db = Ok None ->
    user_plain.Delete id db = (Ok tt, db)
    /\ user.Delete id db = (Err ErrNotFound, db)
    /\ (ID u = id -> (len (PasswordHash u) <= 72)%nat ->
        user_plain.Update lib salt u db = (Ok tt, db))
    /\ user.Update lib salt id email password db = (Err ErrNotFound, db).
Proof.
  intros lib salt email password db id u Hnone.
  unfold mysql.FindByID in Hnone. inversion Hnone as [Hf]. clear Hnone.
  pose proof (find_None_all _ _ Hf) as Hall.
  split; [|split; [|split]].
  - unfold user_plain.Delete. cbn [repo_Delete mysql.UserRepository]. unfold mysql.Delete.
    rewrite map_unchanged; [destruct db; reflexivity|].
    intros x Hx. rewrite (Hall x Hx). reflexivity.
  - unfold user.Delete, bind, wrap, query, fail.
    cbn [repo_FindByID mysql.UserRepository]. unfold mysql.FindByID. rewrite Hf. reflexivity.
  - intros Hid Hlen. unfold user_plain.Update, bcrypt.GenerateFromPassword.
    destruct (Nat.ltb_spec 72 (len (PasswordHash u))); [lia|]. cbn [Nat.ltb Nat.leb bcrypt.DefaultCost bcrypt.MinCost bcrypt.MaxCost].
    cbn [repo_Update mysql.UserRepository]. unfold mysql.Update.
    cbn [ID with_PasswordHash]. rewrite Hid.
    assert (Hex : existsb (mysql.where_id id) (mysql.users db) = false).
    { destruct (existsb (mysql.where_id id) (mysql.users db)) eqn:E; [|reflexivity].
      apply existsb_exists in E. destruct E as (x & Hx & E). rewrite (Hall x Hx) in E.
      discriminate. }
    rewrite Hex. cbn [andb].
    rewrite map_unchanged; [destruct db; reflexivity|].
    intros x Hx. rewrite (Hall x Hx). reflexivity.
  - unfold user.Update, bind, wrap, query, fail.
    cbn [repo_FindByID mysql.UserRepository]. unfold mysql.FindByID. rewrite Hf. reflexivity.
Qed.

Lemma plain_service_checks_no_existence_witness :
  user_plain.Delete 99 sample.db = (Ok tt, sample.db)
  /\ user.Delete 99 sample.db = (Err ErrNotFound, sample.db).
Proof.
  pose proof (plain_service_checks_no_existence sample.hasher sample.salt0 "" "" sample.db
                99%N sample.alice eq_refl) as (H1 & H2 & _).
  split; assumption.
Defined.

(** ** The handlers of the plain service *)








